(** * BeER manager service: permission engine, credential provisioning,
      job dispatch and resource listing

    Shallow embedding of [src/beer/manager/api.py] and
    [src/beer/manager/service.py].  Handlers are functions in a small
    state-and-exception monad over the registry, the Docker client and a
    log of the mutating calls they issue. *)

From Stdlib Require Import ZArith String Ascii List Bool Lia.
From stdpp Require Import gmap strings list fin_maps.

(* ===================================================================== *)
(** * Python strings *)
(* ===================================================================== *)

Module PyStr.

(** [str.lower] on the ASCII range (member names are ASCII). *)
Definition lower_ascii (c : ascii) : ascii :=
  let n := nat_of_ascii c in
  if (65 <=? n)%nat && (n <=? 90)%nat then ascii_of_nat (n + 32) else c.

Fixpoint lower (s : string) : string :=
  match s with
  | EmptyString => EmptyString
  | String c rest => String (lower_ascii c) (lower rest)
  end.

(** [needle in hay] for strings. *)
Fixpoint contains (needle hay : string) : bool :=
  String.prefix needle hay ||
  match hay with
  | EmptyString => false
  | String _ rest => contains needle rest
  end.

(** ["\n".join(parts)] and friends. *)
Fixpoint join (sep : string) (parts : list string) : string :=
  match parts with
  | [] => EmptyString
  | [p] => p
  | p :: rest => p +:+ sep +:+ join sep rest
  end.

End PyStr.

(* ===================================================================== *)
(** * api.py: PermissionLevel *)
(* ===================================================================== *)

Inductive PermissionLevel := OWNER | ADMIN | USER.

#[global] Instance PermissionLevel_eq_dec : EqDecision PermissionLevel.
Proof. solve_decision. Defined.

(** The member values: [OWNER = 0], [ADMIN = 1], [USER = 2]. *)
Definition PermissionLevel_value (p : PermissionLevel) : Z :=
  match p with OWNER => 0 | ADMIN => 1 | USER => 2 end%Z.

(** [list(PermissionLevel)]: members in definition order. *)
Definition PermissionLevel_members : list PermissionLevel := [OWNER; ADMIN; USER].

(** [list.index]: position of the first equal element ([None] is Python's
    [ValueError]). *)
Fixpoint list_index `{EqDecision A} (x : A) (l : list A) : option Z :=
  match l with
  | [] => None
  | y :: rest => if decide (y = x) then Some 0%Z
                 else (fun i => (i + 1)%Z) <$> list_index x rest
  end.

(** [l[i]] for a non-negative index ([None] is Python's [IndexError]). *)
Definition list_getitem {A} (l : list A) (i : Z) : option A :=
  if (i <? 0)%Z then None else l !! Z.to_nat i.

(** [higher_permission]:
    [list(PermissionLevel)[max(0, list(PermissionLevel).index(self) - 1)]]. *)
Definition higher_permission (self : PermissionLevel) : option PermissionLevel :=
  i ← list_index self PermissionLevel_members;
  list_getitem PermissionLevel_members (Z.max 0 (i - 1)).

(* ===================================================================== *)
(** * api.py: ReturnCodes *)
(* ===================================================================== *)

(** The members the class body defines, in order. *)
Inductive ReturnCodes :=
| DB_ERROR
| PERMISSION_ERROR
| ALREADY_REGISTERED_ERROR
| NOT_REGISTERED_ERROR
| KEY_MISSING_ERROR
| WORKER_INFO
| REGISTRATION_SUCCESSFUL
| PERMISSION_OK
| DISPATCH_OK
| RESOURCES.

#[global] Instance ReturnCodes_eq_dec : EqDecision ReturnCodes.
Proof. solve_decision. Defined.

Definition ReturnCodes_members : list ReturnCodes :=
  [DB_ERROR; PERMISSION_ERROR; ALREADY_REGISTERED_ERROR; NOT_REGISTERED_ERROR;
   KEY_MISSING_ERROR; WORKER_INFO; REGISTRATION_SUCCESSFUL; PERMISSION_OK;
   DISPATCH_OK; RESOURCES].

(** [self.name]. *)
Definition ReturnCodes_name (c : ReturnCodes) : string :=
  match c with
  | DB_ERROR => "DB_ERROR"
  | PERMISSION_ERROR => "PERMISSION_ERROR"
  | ALREADY_REGISTERED_ERROR => "ALREADY_REGISTERED_ERROR"
  | NOT_REGISTERED_ERROR => "NOT_REGISTERED_ERROR"
  | KEY_MISSING_ERROR => "KEY_MISSING_ERROR"
  | WORKER_INFO => "WORKER_INFO"
  | REGISTRATION_SUCCESSFUL => "REGISTRATION_SUCCESSFUL"
  | PERMISSION_OK => "PERMISSION_OK"
  | DISPATCH_OK => "DISPATCH_OK"
  | RESOURCES => "RESOURCES"
  end.

(** Attribute access [ReturnCodes.<attr>] as the handlers write it: the
    member of that name, [None] (Python's [AttributeError]) when the class
    body defines no such member. *)
Definition ReturnCodes_getattr (attr : string) : option ReturnCodes :=
  List.find (fun c => String.eqb (ReturnCodes_name c) attr) ReturnCodes_members.

(** The text test the [is_error] property performs, on any member name:
    ["error" in name.lower()]. *)
Definition is_error_of_name (name : string) : bool :=
  PyStr.contains "error" (PyStr.lower name).

(** [ReturnCodes.is_error]. *)
Definition is_error (self : ReturnCodes) : bool :=
  is_error_of_name (ReturnCodes_name self).

(* ===================================================================== *)
(** * Exceptions and results *)
(* ===================================================================== *)

(** The exceptions a handler can let escape or catch. *)
Inductive exn :=
| AttributeError (attr : string)      (* [ReturnCodes.<attr>] with no such member *)
| ValidationError (field : string)    (* pydantic: a required field is missing *)
| DoesNotExist (pk : string)          (* peewee [Model.get_by_id] on an absent key *)
| NotFound (what : string)            (* [docker.errors.NotFound] *)
| APIError (explanation : string)     (* [docker.errors.APIError] *)
| DBError (message : string)          (* [beer_db.DBError] *)
| KeyError (key : string)
| TypeError (message : string)
| IndexError
| ValueError
| OverflowError.

Inductive Result (A : Type) :=
| Ok (a : A)
| Raise (e : exn).
Arguments Ok {A} a.
Arguments Raise {A} e.

(** The value of a result that is not an exception. *)
Definition or_raise_option {A} (r : Result A) : option A :=
  match r with Ok a => Some a | Raise _ => None end.

(** An [option] whose [None] stands for a Python exception. *)
Definition or_raise {A} (e : exn) (o : option A) : Result A :=
  match o with Some a => Ok a | None => Raise e end.

(* ===================================================================== *)
(** * The datetime values the dispatcher computes with *)
(* ===================================================================== *)

(** [datetime.datetime] (naive), [timedelta(hours=...)], [+] and
    [strftime("%m%d%Y%H%M%S")], following the reference implementation of the
    standard library. *)
Module PyDatetime.
Local Open Scope Z_scope.

Record datetime := {
  year : Z; month : Z; day : Z;
  hour : Z; minute : Z; second : Z; microsecond : Z }.

Definition MINYEAR := 1.
Definition MAXYEAR := 9999.
Definition MAXORDINAL := 3652059.

Definition is_leap (y : Z) : bool :=
  (y mod 4 =? 0) && (negb (y mod 100 =? 0) || (y mod 400 =? 0)).

Definition days_before_year (y : Z) : Z :=
  let y := y - 1 in y * 365 + y / 4 - y / 100 + y / 400.

Definition DAYS_IN_MONTH (m : Z) : Z :=
  match m with
  | 1 => 31 | 2 => 28 | 3 => 31 | 4 => 30 | 5 => 31 | 6 => 30
  | 7 => 31 | 8 => 31 | 9 => 30 | 10 => 31 | 11 => 30 | 12 => 31
  | _ => -1
  end.

Definition DAYS_BEFORE_MONTH (m : Z) : Z :=
  match m with
  | 1 => 0 | 2 => 31 | 3 => 59 | 4 => 90 | 5 => 120 | 6 => 151
  | 7 => 181 | 8 => 212 | 9 => 243 | 10 => 273 | 11 => 304 | 12 => 334
  | _ => -1
  end.

Definition days_in_month (y m : Z) : Z :=
  if (m =? 2) && is_leap y then 29 else DAYS_IN_MONTH m.

Definition days_before_month (y m : Z) : Z :=
  DAYS_BEFORE_MONTH m + (if (2 <? m) && is_leap y then 1 else 0).

Definition ymd2ord (y m d : Z) : Z :=
  days_before_year y + days_before_month y m + d.

Definition DI400Y := days_before_year 401.
Definition DI100Y := days_before_year 101.
Definition DI4Y := days_before_year 5.

(** Ordinal to (year, month, day), ordinal 1 being 01-Jan-0001. *)
Definition ord2ymd (n : Z) : Z * Z * Z :=
  let n := n - 1 in
  let n400 := n / DI400Y in let n := n mod DI400Y in
  let y := n400 * 400 + 1 in
  let n100 := n / DI100Y in let n := n mod DI100Y in
  let n4 := n / DI4Y in let n := n mod DI4Y in
  let n1 := n / 365 in let n := n mod 365 in
  let y := y + n100 * 100 + n4 * 4 + n1 in
  if (n1 =? 4) || (n100 =? 4) then (y - 1, 12, 31)
  else
    let leapyear := (n1 =? 3) && (negb (n4 =? 24) || (n100 =? 3)) in
    let m := Z.shiftr (n + 50) 5 in
    let preceding := DAYS_BEFORE_MONTH m + (if (2 <? m) && leapyear then 1 else 0) in
    if n <? preceding then
      let m := m - 1 in
      let preceding :=
        preceding - (DAYS_IN_MONTH m + (if (m =? 2) && leapyear then 1 else 0)) in
      (y, m, n - preceding + 1)
    else (y, m, n - preceding + 1).

(** The range checks of the constructors. *)
Definition check_date_fields (y m d : Z) : bool :=
  (MINYEAR <=? y) && (y <=? MAXYEAR) && (1 <=? m) && (m <=? 12) &&
  (1 <=? d) && (d <=? days_in_month y m).

Definition check_time_fields (h mi s us : Z) : bool :=
  (0 <=? h) && (h <=? 23) && (0 <=? mi) && (mi <=? 59) &&
  (0 <=? s) && (s <=? 59) && (0 <=? us) && (us <=? 999999).

Definition valid (dt : datetime) : bool :=
  check_date_fields (year dt) (month dt) (day dt) &&
  check_time_fields (hour dt) (minute dt) (second dt) (microsecond dt).

(** [datetime(y, m, d, h, mi, s, us)]: [ValueError] outside the ranges. *)
Definition make (y m d h mi s us : Z) : Result datetime :=
  let dt := {| year := y; month := m; day := d;
               hour := h; minute := mi; second := s; microsecond := us |} in
  if valid dt then Ok dt else Raise ValueError.

Definition toordinal (dt : datetime) : Z :=
  ymd2ord (year dt) (month dt) (day dt).

(** A normalised [timedelta]: [0 <= seconds < 86400],
    [0 <= microseconds < 1000000]. *)
Record timedelta := { td_days : Z; td_seconds : Z; td_microseconds : Z }.

Definition US_PER_SECOND := 1000000.
Definition US_PER_DAY := 86400 * US_PER_SECOND.

(** Normalisation from a count of microseconds; [OverflowError] when the
    day count leaves [-999999999, 999999999]. *)
Definition timedelta_of_us (us : Z) : Result timedelta :=
  let d := us / US_PER_DAY in
  let r := us mod US_PER_DAY in
  if (-999999999 <=? d) && (d <=? 999999999)
  then Ok {| td_days := d; td_seconds := r / US_PER_SECOND;
             td_microseconds := r mod US_PER_SECOND |}
  else Raise OverflowError.

Definition timedelta_us (td : timedelta) : Z :=
  (td_days td * 86400 + td_seconds td) * US_PER_SECOND + td_microseconds td.

(** [timedelta(hours=h)] for an integral number of hours. *)
Definition timedelta_hours (h : Z) : Result timedelta :=
  timedelta_of_us (h * 3600 * US_PER_SECOND).

(** [datetime.__add__]. *)
Definition add (self : datetime) (other : timedelta) : Result datetime :=
  match timedelta_of_us
          ((toordinal self * 86400 + hour self * 3600 + minute self * 60 + second self)
             * US_PER_SECOND + microsecond self + timedelta_us other) with
  | Raise e => Raise e
  | Ok delta =>
      let h := td_seconds delta / 3600 in
      let rem := td_seconds delta mod 3600 in
      let mi := rem / 60 in
      let s := rem mod 60 in
      if (0 <? td_days delta) && (td_days delta <=? MAXORDINAL) then
        let '(y, m, d) := ord2ymd (td_days delta) in
        make y m d h mi s (td_microseconds delta)
      else Raise OverflowError
  end.

(** Decimal digits. *)
Definition digit_char (d : Z) : ascii := ascii_of_nat (48 + Z.to_nat d).

Definition char_digit (c : ascii) : option Z :=
  let n := nat_of_ascii c in
  if ((48 <=? n) && (n <=? 57))%nat then Some (Z.of_nat (n - 48)) else None.

(** [%m], [%d], [%H], [%M], [%S]: two digits, zero padded. *)
Definition pad2 (n : Z) : string :=
  String (digit_char (n / 10)) (String (digit_char (n mod 10)) EmptyString).

(** Four decimal digits. *)
Definition pad4 (n : Z) : string :=
  String (digit_char (n / 1000))
    (String (digit_char (n / 100 mod 10))
       (String (digit_char (n / 10 mod 10))
          (String (digit_char (n mod 10)) EmptyString))).

(** [%Y] as the C library renders it for [strftime]: the decimal digits
    of the year with no padding, so four digits only from year 1000 on
    (year 997 gives ["997"]). *)
Definition fmt_year (y : Z) : string :=
  if y <? 10 then String (digit_char y) EmptyString
  else if y <? 100 then pad2 y
  else if y <? 1000 then String (digit_char (y / 100)) (pad2 (y mod 100))
  else pad4 y.

(** [self.strftime("%m%d%Y%H%M%S")]. *)
Definition strftime_mdYHMS (self : datetime) : string :=
  pad2 (month self) +:+ pad2 (day self) +:+ fmt_year (year self) +:+
  pad2 (hour self) +:+ pad2 (minute self) +:+ pad2 (second self).

(** Reading a label back.  The service only writes the label; this is a
    reader for it that takes the first four characters as month and day, the
    last six as the time of day, and what lies between as the year. *)
Fixpoint digits_value (acc : Z) (s : string) : option Z :=
  match s with
  | EmptyString => Some acc
  | String c rest =>
      match char_digit c with
      | Some d => digits_value (acc * 10 + d) rest
      | None => None
      end
  end.

Definition field (s : string) (start len : nat) : option Z :=
  let f := String.substring start len s in
  if (String.length f =? len)%nat then digits_value 0 f else None.

(** Modelled from the spec: the decode of the expiry label ("round-trip
    decode recovers the same instant to the encoding's resolution"); the
    repository has no reader of the label.  Month and day are the first four
    digits, hour, minute and second the last six, the year what lies
    between. *)
Definition read_label_mdYHMS (s : string) : option datetime :=
  let n := String.length s in
  if (n <? 11)%nat then None else
  m ← field s 0 2; d ← field s 2 2; y ← field s 4 (n - 10);
  h ← field s (n - 6) 2; mi ← field s (n - 4) 2; sec ← field s (n - 2) 2;
  match make y m d h mi sec 0 with Ok dt => Some dt | Raise _ => None end.

(** A datetime cut to whole seconds. *)
Definition truncate_to_second (dt : datetime) : datetime :=
  {| year := year dt; month := month dt; day := day dt;
     hour := hour dt; minute := minute dt; second := second dt;
     microsecond := 0 |}.

End PyDatetime.

(* ===================================================================== *)
(** * api.py: ManagerAnswer *)
(* ===================================================================== *)

(** The values a [data] mapping carries ([Mapping[str, Any]]). *)
#[warnings="-register-all"] Inductive Value :=
| VNone
| VBool (b : bool)
| VInt (z : Z)
| VStr (s : string)
| VLevel (p : PermissionLevel)
| VList (l : list Value)
| VDict (d : list (string * Value)).

Record ManagerAnswer := {
  code : ReturnCodes;
  data : list (string * Value) }.

(** [ManagerAnswer(code=..., data=...)].  The class declares
    [data: Mapping[str, Any]] with no default, so the field is required: a
    call that omits it ([None] here) raises pydantic's validation error. *)
Definition ManagerAnswer_init (code : ReturnCodes)
    (data : option (list (string * Value))) : Result ManagerAnswer :=
  match data with
  | Some d => Ok {| code := code; data := d |}
  | None => Raise (ValidationError "data")
  end.

(** [not x] for [x : Optional[ManagerAnswer]]: [None] is falsy, a model
    instance (no [__bool__], no [__len__]) is truthy. *)
Definition py_not_answer (x : option ManagerAnswer) : bool :=
  match x with None => true | Some _ => false end.

(** [e.args] of a caught exception. *)
Definition exn_args (e : exn) : Value :=
  match e with
  | AttributeError a => VList [VStr a]
  | ValidationError f => VList [VStr f]
  | DoesNotExist pk => VList [VStr pk]
  | NotFound w => VList [VStr w]
  | APIError x => VList [VStr x]
  | DBError m => VList [VStr m]
  | KeyError k => VList [VStr k]
  | TypeError m => VList [VStr m]
  | IndexError | ValueError | OverflowError => VList []
  end.

(** [MESSAGE_TEMPLATES]. *)
Definition MESSAGE_TEMPLATES : list (ReturnCodes * string) :=
  [(DB_ERROR, "A generic error occurred while querying the database!");
   (PERMISSION_ERROR, "You don't have permission to do that!");
   (ALREADY_REGISTERED_ERROR, "User is already registered!");
   (NOT_REGISTERED_ERROR, "User is not registered!");
   (WORKER_INFO, "Worker info");
   (REGISTRATION_SUCCESSFUL, "Registration successful!");
   (PERMISSION_OK, "Ok!");
   (KEY_MISSING_ERROR, "You first need to *add your public SSH key.")].

(** [d[k]] and [k in d] on a mapping keyed by outcome codes. *)
Fixpoint code_get {A} (k : ReturnCodes) (d : list (ReturnCodes * A)) : option A :=
  match d with
  | [] => None
  | (k', v) :: rest => if decide (k' = k) then Some v else code_get k rest
  end.

Section Message.
(** [f"{self.code}"] and [json.dumps(self.data, indent=4)], as the runtime
    renders them. *)
Variable format_code : ReturnCodes -> string.
Variable json_dumps : list (string * Value) -> Result string.

(** [MESSAGE_FORMAT]: the empty mapping. *)
Definition MESSAGE_FORMAT
  : list (ReturnCodes * (list (string * Value) -> Result string)) := [].

(** [ManagerAnswer.message]. *)
Definition ManagerAnswer_message (self : ManagerAnswer) : Result string :=
  match code_get (code self) MESSAGE_FORMAT with
  | Some render => render (data self)
  | None =>
      match code_get (code self) MESSAGE_TEMPLATES with
      | Some template => Ok template
      | None =>
          match json_dumps (data self) with
          | Ok rendered =>
              Ok (format_code (code self) +:+ ":" +:+ String (ascii_of_nat 10)
                    (String (ascii_of_nat 10) rendered))
          | Raise e => Raise e
          end
      end
  end.

End Message.

(* ===================================================================== *)
(** * Request models (declared in beer.models) *)
(* ===================================================================== *)

(** [RequestUser], with the fields [build_request_user] fills. *)
Record RequestUser := {
  user_id : string;
  username : option string;
  full_name : string }.

(** [WorkerModel], with the fields the service and the registry use. *)
Record WorkerModel := {
  wm_hostname : string;
  wm_external_ip : string;
  wm_volumes_root : string }.

(** One entry of [job.gpus], read as [gpu['uuid']]. *)
Record GpuRequest := { gpu_uuid : string }.

(** [JobRequestModel], with the fields [dispatch] reads;
    [expected_duration] is a whole number of hours. *)
Record JobRequestModel := {
  job_user_id : string;
  worker_hostname : string;
  expected_duration : Z;
  image : string;
  job_gpus : list GpuRequest;
  volume_mount : string }.

(* ===================================================================== *)
(** * Docker objects *)
(* ===================================================================== *)

Record Config := { config_id : string; config_name : string }.

Record ConfigReference := {
  ref_config_id : string;
  ref_config_name : string;
  ref_filename : string }.

(** The keyword arguments of [client.services.create] as [dispatch]
    passes them; [sk_mount] is what it passes under the keyword [mount]. *)
Record ServiceKwargs := {
  sk_image : string;
  sk_name : string;
  sk_tty : bool;
  sk_labels : list (string * string);
  sk_endpoint_ports : list (option Z * (Z * option Z * string));
  sk_constraints : list string;
  sk_env : list string;
  sk_configs : list ConfigReference;
  sk_mount : list string }.

(** A service: its id and [attrs["Spec"]["Labels"]]. *)
Record Service := {
  service_id : string;
  service_labels : list (string * string) }.

(** [service.attrs]. *)
Definition Service_attrs (s : Service) : Value :=
  VDict [("ID", VStr (service_id s));
         ("Spec", VDict [("Labels",
            VDict (map (fun kv => (kv.1, VStr kv.2)) (service_labels s)))])].

(** A swarm node: [attrs["Status"]["State"]],
    [attrs["Spec"]["Availability"]], [attrs["Description"]["Hostname"]]. *)
Record Node := {
  node_id : string;
  node_state : string;
  node_availability : string;
  node_hostname : string }.

(** The part of the Docker SDK client the service calls, over an abstract
    daemon state [D].  Every call may fail and may change the daemon. *)
Record DockerClient (D : Type) := {
  configs_get : string -> D -> Result Config * D;
  config_remove : Config -> D -> Result () * D;
  configs_create : string -> string -> D -> Result Config * D;
  config_reload : Config -> D -> Result Config * D;
  services_create : ServiceKwargs -> D -> Result Service * D;
  service_reload : Service -> D -> Result Service * D;
  services_list : string -> D -> Result (list Service) * D;
  nodes_list : string -> D -> Result (list Node) * D;
  node_reload : Node -> D -> Result Node * D }.
Arguments configs_get {D}.
Arguments config_remove {D}.
Arguments configs_create {D}.
Arguments config_reload {D}.
Arguments services_create {D}.
Arguments service_reload {D}.
Arguments services_list {D}.
Arguments nodes_list {D}.
Arguments node_reload {D}.

(* ===================================================================== *)
(** * Registry rows and service state *)
(* ===================================================================== *)

(** A [User] row, keyed by the user id. *)
Record UserRow := {
  u_username : option string;
  u_full_name : string;
  u_permission_level : PermissionLevel;
  u_public_ssh_key : option string }.

(** A [Worker] row, keyed by the hostname. *)
Record WorkerRow := {
  w_external_ip : string;
  w_volumes_root : string }.

(** A [Worker] instance: the key with its row. *)
Record Worker := {
  hostname : string;
  worker_row : WorkerRow }.

(** A [GPU] row. *)
Record GPURow := {
  g_uuid : string;
  g_worker : string;
  g_available : bool }.

(** The calls a handler issues that the log records: entering the
    permission check, and every call that writes to the registry, the secret
    store or the orchestrator. *)
Inductive Call :=
| CPermissionCheck (uid : string) (required_level : PermissionLevel)
| CUserUpdateDetails (uid : string)
| CUserRegister (uid : string) (level : PermissionLevel)
| CUserSave (uid : string)
| CWorkerRegister (host : string)
| CConfigRemove (name : string)
| CConfigCreate (name : string) (material : string)
| CServiceCreate (kwargs : ServiceKwargs).

Definition mutating (c : Call) : bool :=
  match c with CPermissionCheck _ _ => false | _ => true end.

Record State (D : Type) := {
  users : gmap string UserRow;
  workers : gmap string WorkerRow;
  gpus : list GPURow;
  docker : D;
  clock : PyDatetime.datetime;   (* [datetime.fromtimestamp(time.time())] *)
  calls : list Call;
  db_fault : option string }.    (* the storage error a registration write meets *)
Arguments users {D}.
Arguments workers {D}.
Arguments gpus {D}.
Arguments docker {D}.
Arguments clock {D}.
Arguments calls {D}.
Arguments db_fault {D}.

Definition set_users {D} (f : gmap string UserRow -> gmap string UserRow)
    (s : State D) : State D :=
  {| users := f (users s); workers := workers s; gpus := gpus s;
     docker := docker s; clock := clock s; calls := calls s;
     db_fault := db_fault s |}.

Definition set_workers {D} (f : gmap string WorkerRow -> gmap string WorkerRow)
    (s : State D) : State D :=
  {| users := users s; workers := f (workers s); gpus := gpus s;
     docker := docker s; clock := clock s; calls := calls s;
     db_fault := db_fault s |}.

Definition set_docker {D} (d : D) (s : State D) : State D :=
  {| users := users s; workers := workers s; gpus := gpus s;
     docker := d; clock := clock s; calls := calls s;
     db_fault := db_fault s |}.

Definition log_call {D} (c : Call) (s : State D) : State D :=
  {| users := users s; workers := workers s; gpus := gpus s;
     docker := docker s; clock := clock s; calls := calls s ++ [c];
     db_fault := db_fault s |}.

(* ===================================================================== *)
(** * The handler monad: state threaded through, exceptions propagated *)
(* ===================================================================== *)

Definition M (D A : Type) : Type := State D -> Result A * State D.

Definition ret {D A} (a : A) : M D A := fun s => (Ok a, s).

Definition raise {D A} (e : exn) : M D A := fun s => (Raise e, s).

Definition bind {D A B} (m : M D A) (k : A -> M D B) : M D B :=
  fun s => match m s with
           | (Ok a, s') => k a s'
           | (Raise e, s') => (Raise e, s')
           end.

(** [try: m  except ... : h e]; a handler re-raises what it does not catch. *)
Definition try_except {D A} (m : M D A) (h : exn -> M D A) : M D A :=
  fun s => match m s with
           | (Ok a, s') => (Ok a, s')
           | (Raise e, s') => h e s'
           end.

Definition lift {D A} (r : Result A) : M D A := fun s => (r, s).

Definition get {D} : M D (State D) := fun s => (Ok s, s).

Definition modify {D} (f : State D -> State D) : M D () := fun s => (Ok (), f s).

Notation "'let*' x ':=' m 'in' k" := (bind m (fun x => k))
  (at level 10, x pattern, m at level 100, k at level 200).
Notation "m ';;' k" := (bind m (fun _ => k))
  (at level 100, k at level 200, right associativity).

(* ===================================================================== *)
(** * The registry (beer_db) *)
(* ===================================================================== *)

Module Registry.
Section Registry.
Context {D : Type}.

(** Modelled from the spec: [User.update_details] of beer_db, not in the
    sources.  "Refreshes the caller's contact-info fields in the Registry
    (idempotent upsert) regardless of outcome"; it does not register anyone
    (the check that follows can still answer not-registered) and leaves
    the permission level and the key alone. *)
Definition User_update_details (uid : string) (uname : option string)
    (fname : string) : M D () :=
  modify (fun s =>
    log_call (CUserUpdateDetails uid)
      (set_users (alter (fun u =>
         {| u_username := uname; u_full_name := fname;
            u_permission_level := u_permission_level u;
            u_public_ssh_key := u_public_ssh_key u |}) uid) s)).

(** Modelled from the spec: [User.is_registered] of beer_db
    ([isRegistered(id)]): a User record with that id exists. *)
Definition User_is_registered (uid : string) : M D bool :=
  let* s := get in ret (bool_decide (is_Some (users s !! uid))).

(** Modelled from the spec: [User.get_admins] of beer_db ([listAdmins()],
    "the current set of Admin/Owner" users). *)
Definition User_get_admins : M D (list (string * UserRow)) :=
  let* s := get in
  ret (filter (fun kv => bool_decide
                 (PermissionLevel_value (u_permission_level kv.2) <= 1)%Z)
         (map_to_list (users s))).

(** Modelled from the spec: [User.permission_check] of beer_db.  "Compares
    the caller's stored level against requiredLevel; fails if the caller's
    level is strictly weaker (numerically greater)"; an id with no record
    has no level to compare and fails. *)
Definition User_permission_check (uid : string) (required_level : Z) : M D bool :=
  let* s := get in
  ret (match users s !! uid with
       | Some u => bool_decide (PermissionLevel_value (u_permission_level u)
                                  <= required_level)%Z
       | None => false
       end).

(** Modelled from the spec: [User.register] of beer_db
    ([setPermission(id, level)]): sets the level of the record with that
    id, creating the record when there is none.  On a failure of the storage
    backend it writes nothing and raises the storage error ("all operations
    ... must fail with a distinguishable StorageError on backend failure"). *)
Definition upsert_level (uid : string) (level : PermissionLevel)
    (us : gmap string UserRow) : gmap string UserRow :=
  match us !! uid with
  | Some u => <[uid := {| u_username := u_username u;
                          u_full_name := u_full_name u;
                          u_permission_level := level;
                          u_public_ssh_key := u_public_ssh_key u |}]> us
  | None => <[uid := {| u_username := None; u_full_name := "";
                        u_permission_level := level;
                        u_public_ssh_key := None |}]> us
  end.

Definition User_register (uid : string) (level : PermissionLevel) : M D () :=
  modify (log_call (CUserRegister uid level));;
  let* s := get in
  match db_fault s with
  | Some message => raise (DBError message)
  | None => modify (set_users (upsert_level uid level))
  end.

(** peewee's [User.get_by_id]: the row, or [DoesNotExist]. *)
Definition User_get_by_id (pk : string) : M D (string * UserRow) :=
  let* s := get in
  match users s !! pk with
  | Some u => ret (pk, u)
  | None => raise (DoesNotExist pk)
  end.

(** [user.public_ssh_key = key; user.save(only=[User.public_ssh_key])]:
    writes that one column of the row. *)
Definition User_save_public_ssh_key (uid : string) (key : string) : M D () :=
  modify (fun s =>
    log_call (CUserSave uid)
      (set_users (alter (fun u =>
         {| u_username := u_username u; u_full_name := u_full_name u;
            u_permission_level := u_permission_level u;
            u_public_ssh_key := Some key |}) uid) s)).

(** Modelled from the spec: [Worker.register] of beer_db
    ([registerWorker(workerModel) -> Worker], "upsert keyed by hostname,
    returns current record").  On a failure of the storage backend it writes
    nothing and raises [DBError] with the backend's message. *)
Definition Worker_register (wm : WorkerModel) : M D Worker :=
  let row := {| w_external_ip := wm_external_ip wm;
                w_volumes_root := wm_volumes_root wm |} in
  modify (log_call (CWorkerRegister (wm_hostname wm)));;
  let* s := get in
  match db_fault s with
  | Some message => raise (DBError message)
  | None =>
      modify (set_workers (insert (wm_hostname wm) row));;
      ret {| hostname := wm_hostname wm; worker_row := row |}
  end.

(** peewee's [Worker.get_by_id]. *)
Definition Worker_get_by_id (pk : string) : M D Worker :=
  let* s := get in
  match workers s !! pk with
  | Some row => ret {| hostname := pk; worker_row := row |}
  | None => raise (DoesNotExist pk)
  end.

(** Modelled from the spec: [GPU.by_workers] of beer_db
    ([gpusByWorkers(hostnames) -> mapping Worker -> sequence GPU], "GPU
    inventory scoped to that online set"): the registered workers among
    the given hostnames, each with its GPU rows. *)
Definition GPU_by_workers (worker_ids : list string)
  : M D (list (Worker * list GPURow)) :=
  let* s := get in
  ret (map (fun kv =>
              ({| hostname := kv.1; worker_row := kv.2 |},
               filter (fun g => g_worker g = kv.1) (gpus s)))
         (filter (fun kv => kv.1 ∈ worker_ids) (map_to_list (workers s)))).

(** [worker.__data__] and [model_to_dict(worker)]. *)
Definition Worker_to_dict (w : Worker) : Value :=
  VDict [("hostname", VStr (hostname w));
         ("external_ip", VStr (w_external_ip (worker_row w)));
         ("volumes_root", VStr (w_volumes_root (worker_row w)))].

(** [model_to_dict(gpu, recurse=False)]. *)
Definition GPU_to_dict (g : GPURow) : Value :=
  VDict [("uuid", VStr (g_uuid g));
         ("worker", VStr (g_worker g));
         ("available", VBool (g_available g))].

End Registry.
End Registry.

(* ===================================================================== *)
(** * service.py *)
(* ===================================================================== *)

Definition _SWARM_RESOURCE : string := "DOCKER_RESOURCE_GPU".
Definition _LABEL_USER_ID : string := "beer.user_id".
Definition _LABEL_EXPIRE : string := "beer.expire".
Definition _CONFIG_PREFIX : string := "beer_ssh-key_".

(** The line feed of ["\n".join(...)]. *)
Definition LF : string := String (ascii_of_nat 10) EmptyString.

(** [d[k]] on a mapping of strings. *)
Fixpoint dict_get (k : string) (d : list (string * string)) : option string :=
  match d with
  | [] => None
  | (k', v) :: rest => if String.eqb k' k then Some v else dict_get k rest
  end.


(** The keywords under which [dispatch] passes its arguments to
    [client.services.create], as the call is written. *)
Definition dispatch_keywords : list string :=
  ["image"; "name"; "tty"; "labels"; "endpoint_spec"; "constraints"; "env";
   "configs"; "mount"].

(** The keywords [services.create] of the Docker SDK takes: those of the
    container spec, the task template, the service itself, the placement and
    the log driver. *)
Definition SERVICE_CREATE_KEYWORDS : list string :=
  ["image"; "command"; "args"; "cap_add"; "cap_drop"; "configs"; "dns_config";
   "env"; "groups"; "healthcheck"; "hostname"; "hosts"; "init"; "isolation";
   "labels"; "mounts"; "open_stdin"; "privileges"; "read_only"; "secrets";
   "stop_grace_period"; "stop_signal"; "tty"; "user"; "workdir";
   "networks"; "resources"; "restart_policy";
   "name"; "mode"; "update_config"; "rollback_config"; "endpoint_spec";
   "container_labels"; "constraints"; "preferences"; "platforms"; "maxreplicas";
   "log_driver"; "log_driver_options"].

Module Service.
Section Service.
Context {D : Type} (client : DockerClient D).
Import Registry.

(** ** The Docker client, in the monad *)

Definition on_docker {A} (f : D -> Result A * D) : M D A :=
  fun s => let '(r, d) := f (docker s) in (r, set_docker d s).

Definition client_configs_get (name : string) : M D Config :=
  on_docker (configs_get client name).

Definition docker_config_remove (c : Config) : M D () :=
  modify (log_call (CConfigRemove (config_name c)));;
  on_docker (config_remove client c).

Definition client_configs_create (name material : string) : M D Config :=
  modify (log_call (CConfigCreate name material));;
  on_docker (configs_create client name material).

Definition docker_config_reload (c : Config) : M D Config :=
  on_docker (config_reload client c).

(** [client.services.create] with keyword arguments: the SDK sorts the keywords into
    the specs it builds and raises [TypeError] for one it does not know,
    before the daemon is contacted. *)
Definition client_services_create (kwargs : ServiceKwargs) : M D Service :=
  modify (log_call (CServiceCreate kwargs));;
  match List.find (fun k => negb (existsb (String.eqb k) SERVICE_CREATE_KEYWORDS))
          dispatch_keywords with
  | Some k =>
      raise (TypeError ("create() got an unexpected keyword argument '" +:+ k +:+ "'"))
  | None => on_docker (services_create client kwargs)
  end.

Definition docker_service_reload (sv : Service) : M D Service :=
  on_docker (service_reload client sv).

Definition client_services_list (label : string) : M D (list Service) :=
  on_docker (services_list client label).

Definition client_nodes_list (role : string) : M D (list Node) :=
  on_docker (nodes_list client role).

Definition docker_node_reload (n : Node) : M D Node :=
  on_docker (node_reload client n).

(** ** Building answers *)

(** [ReturnCodes.<attr>] evaluated inside a handler. *)
Definition ReturnCodes_attr (attr : string) : M D ReturnCodes :=
  lift (or_raise (AttributeError attr) (ReturnCodes_getattr attr)).

(** [ManagerAnswer(code=ReturnCodes.<attr>, data=...)]; [None] when the
    call passes no [data]. *)
Definition answer (attr : string) (data : option (list (string * Value)))
  : M D ManagerAnswer :=
  let* c := ReturnCodes_attr attr in
  lift (ManagerAnswer_init c data).

(** ** [/ready] *)
Definition is_ready : M D ManagerAnswer :=
  answer "READY" None.

(** ** [/join] *)
Definition add_worker (worker_model : WorkerModel) (request_client_host : string)
  : M D ManagerAnswer :=
  let worker_model := {| wm_hostname := wm_hostname worker_model;
                         wm_external_ip := request_client_host;
                         wm_volumes_root := wm_volumes_root worker_model |} in
  try_except
    (let* worker := Worker_register worker_model in
     answer "WORKER_INFO" (Some [("info", Worker_to_dict worker)]))
    (fun e => match e with
              | DBError message => answer "DB_ERROR" (Some [("message", VStr message)])
              | _ => raise e
              end).

(** ** [permission_check]: [None] admits the caller. *)
Definition permission_check (request_user : RequestUser)
    (required_level : PermissionLevel) : M D (option ManagerAnswer) :=
  modify (log_call (CPermissionCheck (user_id request_user) required_level));;
  User_update_details (user_id request_user) (username request_user)
    (full_name request_user);;
  let* not_registered :=
    (if bool_decide (required_level = USER)
     then let* r := User_is_registered (user_id request_user) in ret (negb r)
     else ret false) in
  if not_registered then
    let* admins := User_get_admins in
    let admins := omap (fun admin => (fun n => "- @" +:+ n) <$> u_username admin.2)
                    admins in
    let admins := PyStr.join LF admins in
    let* a := answer "NOT_REGISTERED_ERROR" (Some [("admins", VStr admins)]) in
    ret (Some a)
  else
    let* allowed := User_permission_check (user_id request_user)
                      (PermissionLevel_value required_level) in
    if negb allowed then
      let* a := answer "PERMISSION_ERROR" None in
      ret (Some a)
    else ret None.

(** ** [/set_permission] *)
Definition set_permission (request_user : RequestUser) (uid : string)
    (permission_level : PermissionLevel) : M D ManagerAnswer :=
  let* required := lift (or_raise IndexError (higher_permission permission_level)) in
  let* check := permission_check request_user required in
  if py_not_answer check then
    answer "PERMISSION_ERROR" (Some [])
  else
    let* registered := User_is_registered uid in
    if negb registered then
      answer "NOT_REGISTERED_ERROR" (Some [("user_id", VStr uid)])
    else
      try_except
        (User_register uid permission_level;;
         answer "REGISTRATION_SUCCESSFUL"
           (Some [("user_id", VStr uid);
                  ("permission_level", VLevel permission_level)]))
        (fun e => answer "DB_ERROR" (Some [("args", exn_args e)])).

(** ** [/register_user] *)
Definition register_user (request_user : RequestUser) (uid : string)
  : M D ManagerAnswer :=
  let* permission_error := permission_check request_user ADMIN in
  match permission_error with
  | Some err => ret err
  | None =>
      let* registered := User_is_registered uid in
      if registered then
        answer "ALREADY_REGISTERED_ERROR" (Some [("user_id", VStr uid)])
      else
        try_except
          (User_register uid USER;;
           answer "REGISTRATION_SUCCESSFUL" (Some [("user_id", VStr uid)]))
          (fun e => answer "DB_ERROR" (Some [("args", exn_args e)]))
  end.

(** ** [/set_ssh_key] *)
Definition set_ssh_key (request_user : RequestUser) (ssh_key : string)
  : M D ManagerAnswer :=
  let* permission_error := permission_check request_user USER in
  match permission_error with
  | Some err => ret err
  | None =>
      let* user := User_get_by_id (user_id request_user) in
      let config_name_ := _CONFIG_PREFIX +:+ user.1 in
      let* early :=
        try_except
          (let* docker_config := client_configs_get config_name_ in
           docker_config_remove docker_config;;
           ret None)
          (fun e => match e with
                    | NotFound _ => ret None
                    | APIError explanation =>
                        if PyStr.contains "in use by the following service" explanation
                        then let* a := answer "KEY_IN_USE_ERROR" (Some []) in
                             ret (Some a)
                        else ret None
                    | _ => raise e
                    end) in
      match early with
      | Some a => ret a
      | None =>
          let* docker_config := client_configs_create config_name_ ssh_key in
          let* docker_config := docker_config_reload docker_config in
          if negb (String.eqb (config_name docker_config) config_name_) then
            answer "RUNTIME_ERROR"
              (Some [("config_name", VStr config_name_);
                     ("docker_config_name", VStr (config_name docker_config))])
          else
            User_save_public_ssh_key user.1 ssh_key;;
            answer "SET_KEY_SUCCESSFUL" None
      end
  end.

(** ** [/check_ssh_key] *)
Definition check_ssh_key (request_user : RequestUser) : M D ManagerAnswer :=
  let* permission_error := permission_check request_user USER in
  match permission_error with
  | Some err => ret err
  | None =>
      let* user := User_get_by_id (user_id request_user) in
      answer "KEY_CHECK"
        (Some [("is_set", VBool (bool_decide (is_Some (u_public_ssh_key user.2))))])
  end.

(** ** [/job] *)

(** The keyword arguments [dispatch] passes to [client.services.create]. *)
Definition dispatch_kwargs (job : JobRequestModel) (worker : Worker)
    (uid : string) (now expire : PyDatetime.datetime) (docker_config : Config)
  : ServiceKwargs :=
  {| sk_image := image job;
     sk_name := job_user_id job +:+ "_" +:+ PyDatetime.strftime_mdYHMS now;
     sk_tty := true;
     sk_labels := [(_LABEL_USER_ID, job_user_id job);
                   (_LABEL_EXPIRE, PyDatetime.strftime_mdYHMS expire)];
     sk_endpoint_ports := [(None, (22%Z, None, "host"))];
     sk_constraints := ["node.hostname==" +:+ hostname worker];
     sk_env := map (fun gpu => _SWARM_RESOURCE +:+ "=" +:+ gpu_uuid gpu) (job_gpus job);
     sk_configs := [{| ref_config_id := config_id docker_config;
                       ref_config_name := config_name docker_config;
                       ref_filename := "/root/.ssh/authorized_keys" |}];
     sk_mount := [w_volumes_root (worker_row worker) +:+ "/" +:+ uid +:+ ":"
                    +:+ volume_mount job +:+ ":rw"] |}.

Definition dispatch (request_user : RequestUser) (job : JobRequestModel)
  : M D ManagerAnswer :=
  let* permission_error := permission_check request_user USER in
  match permission_error with
  | Some err => ret err
  | None =>
      let* worker := Worker_get_by_id (worker_hostname job) in
      let* user := User_get_by_id (job_user_id job) in
      match u_public_ssh_key user.2 with
      | None => answer "KEY_MISSING_ERROR" None
      | Some _ =>
          let* now := (let* s := get in ret (clock s)) in
          let* delta := lift (PyDatetime.timedelta_hours (expected_duration job)) in
          let* expire := lift (PyDatetime.add now delta) in
          let* found :=
            try_except
              (let* c := client_configs_get (_CONFIG_PREFIX +:+ user.1) in ret (Some c))
              (fun e => match e with NotFound _ => ret None | _ => raise e end) in
          match found with
          | None => answer "KEY_MISSING_ERROR" None
          | Some docker_config =>
              let* service := client_services_create
                                (dispatch_kwargs job worker user.1 now expire docker_config) in
              let* service := docker_service_reload service in
              answer "DISPATCH_OK" (Some [("service.attrs", Service_attrs service)])
          end
      end
  end.

(** ** [/job_list] *)

(** [[service for service in ... if service.attrs["Spec"]["Labels"][_LABEL_USER_ID] == user.id]] *)
Fixpoint services_of (uid : string) (listed : list Service) : Result (list Service) :=
  match listed with
  | [] => Ok []
  | sv :: rest =>
      match dict_get _LABEL_USER_ID (service_labels sv) with
      | None => Raise (KeyError _LABEL_USER_ID)
      | Some owner =>
          match services_of uid rest with
          | Raise e => Raise e
          | Ok kept => Ok (if String.eqb owner uid then sv :: kept else kept)
          end
      end
  end.

Definition job_list (request_user : RequestUser) : M D ManagerAnswer :=
  let* permission_error := permission_check request_user USER in
  match permission_error with
  | Some err => ret err
  | None =>
      let* user := User_get_by_id (user_id request_user) in
      let* listed := client_services_list _LABEL_USER_ID in
      let* services := lift (services_of user.1 listed) in
      answer "JOB_LIST" (Some [("services", VList (map Service_attrs services))])
  end.

(** ** [/list_resources] *)

Definition is_online (node : Node) : bool :=
  String.eqb (node_state node) "ready" && String.eqb (node_availability node) "active".

(** The loop over [workers], with the list it appends to. *)
Fixpoint online_loop (nodes : list Node) (online_workers : list string)
  : M D (list string) :=
  match nodes with
  | [] => ret online_workers
  | node :: rest =>
      let* node := docker_node_reload node in
      if is_online node
      then online_loop rest (online_workers ++ [node_hostname node])
      else online_loop rest online_workers
  end.

Definition resources_data (resources : list (Worker * list GPURow))
  : list (string * Value) :=
  [("workers", VDict (map (fun wg => (hostname wg.1, Worker_to_dict wg.1)) resources));
   ("gpus", VDict (map (fun wg => (hostname wg.1, VList (map GPU_to_dict wg.2)))
                     resources))].

Definition list_resources (request_user : RequestUser)
    (only_online only_available : option bool) : M D ManagerAnswer :=
  let* permission_error := permission_check request_user USER in
  match permission_error with
  | Some err => ret err
  | None =>
      let* nodes := client_nodes_list "worker" in
      let* online_workers := online_loop nodes [] in
      let* resources := GPU_by_workers online_workers in
      answer "RESOURCES" (Some (resources_data resources))
  end.

End Service.
End Service.

(* ===================================================================== *)
(** * telegram_bot.py: the parameters of [/set_permission] *)
(* ===================================================================== *)

Module Bot.
Section Bot.
(** [params_str.strip().split()], [int(s)] ([None] is [ValueError]) and
    [str(n)], as the runtime computes them. *)
Variable py_split : string -> list string.
Variable py_int : string -> option Z.
Variable py_str : Z -> string.

(** [PermissionLevel[name]]: the member of that name, [KeyError] otherwise. *)
Definition PermissionLevel_getitem (name : string) : Result PermissionLevel :=
  if String.eqb name "OWNER" then Ok OWNER
  else if String.eqb name "ADMIN" then Ok ADMIN
  else if String.eqb name "USER" then Ok USER
  else Raise (KeyError name).

(** The body of the [try] in [BeerBot.set_permission]. *)
Definition set_permission_params (params_str : string)
  : Result (Z * PermissionLevel) :=
  match py_split params_str with
  | [] => Raise ValueError                 (* nothing to unpack into user_to_add *)
  | user_to_add :: permission_str =>
      match py_int user_to_add with
      | None => Raise ValueError
      | Some user_to_add =>
          if negb (length permission_str =? 1)%nat then Raise ValueError
          else
            match permission_str with
            | name :: _ =>
                match PermissionLevel_getitem name with
                | Ok permission_level => Ok (user_to_add, permission_level)
                | Raise e => Raise e
                end
            | [] => Raise IndexError
            end
      end
  end.

(** What the handler goes on to do. *)
Inductive Outcome :=
| ParseErrorSent (params_str : string)
| ManagerCalled (uid : string) (permission_level : PermissionLevel).

(** [BeerBot.set_permission], up to the call of the manager: [except
    ValueError] sends the parse error, any other exception escapes. *)
Definition set_permission (params_str : string) : Result Outcome :=
  match set_permission_params params_str with
  | Ok (user_to_add, permission_level) =>
      Ok (ManagerCalled (py_str user_to_add) permission_level)
  | Raise ValueError => Ok (ParseErrorSent params_str)
  | Raise e => Raise e
  end.

End Bot.
End Bot.

(* ===================================================================== *)
(** * An in-memory Docker daemon *)
(* ===================================================================== *)

(** A small daemon to run the handlers against: configs are found by
    name, a config referenced by a service cannot be removed, nodes are
    listed by role and reloaded by id. *)
Module Sim.

Record Daemon := {
  d_configs : list Config;
  d_services : list (Service * list string);   (* with the config names in use *)
  d_nodes : list (string * Node) }.            (* with the role *)

Definition find_config (name : string) (d : Daemon) : option Config :=
  List.find (fun c => String.eqb (config_name c) name) (d_configs d).

Definition in_use (name : string) (d : Daemon) : bool :=
  existsb (fun sv => existsb (String.eqb name) sv.2) (d_services d).

Definition sim_configs_get (name : string) (d : Daemon) : Result Config * Daemon :=
  (or_raise (NotFound name) (find_config name d), d).

Definition sim_config_remove (c : Config) (d : Daemon) : Result () * Daemon :=
  if in_use (config_name c) d
  then (Raise (APIError ("config '" +:+ config_name c
                           +:+ "' is in use by the following service: job")), d)
  else (Ok (),
        {| d_configs := List.filter
                          (fun c' => negb (String.eqb (config_id c') (config_id c)))
                          (d_configs d);
           d_services := d_services d; d_nodes := d_nodes d |}).

Definition sim_configs_create (name material : string) (d : Daemon)
  : Result Config * Daemon :=
  match find_config name d with
  | Some _ => (Raise (APIError ("config " +:+ name +:+ " already exists")), d)
  | None =>
      let c := {| config_id := "id-" +:+ name; config_name := name |} in
      (Ok c, {| d_configs := d_configs d ++ [c];
                d_services := d_services d; d_nodes := d_nodes d |})
  end.

Definition sim_config_reload (c : Config) (d : Daemon) : Result Config * Daemon :=
  (or_raise (NotFound (config_id c))
     (List.find (fun c' => String.eqb (config_id c') (config_id c)) (d_configs d)), d).

(** The daemon's side of a service creation, for a call the SDK let
    through. *)
Definition sim_services_create (kw : ServiceKwargs) (d : Daemon)
  : Result Service * Daemon :=
  let sv := {| service_id := sk_name kw; service_labels := sk_labels kw |} in
  (Ok sv, {| d_configs := d_configs d;
             d_services := d_services d ++ [(sv, map ref_config_name (sk_configs kw))];
             d_nodes := d_nodes d |}).

Definition sim_service_reload (sv : Service) (d : Daemon) : Result Service * Daemon :=
  (Ok sv, d).

Definition sim_services_list (label : string) (d : Daemon)
  : Result (list Service) * Daemon :=
  (Ok (List.filter (fun sv => bool_decide (is_Some (dict_get label (service_labels sv))))
         (map fst (d_services d))), d).

Definition sim_nodes_list (role : string) (d : Daemon) : Result (list Node) * Daemon :=
  (Ok (map snd (List.filter (fun rn => String.eqb rn.1 role) (d_nodes d))), d).

Definition sim_node_reload (n : Node) (d : Daemon) : Result Node * Daemon :=
  (or_raise (NotFound (node_id n))
     (List.find (fun n' => String.eqb (node_id n') (node_id n)) (map snd (d_nodes d))), d).

Definition client : DockerClient Daemon :=
  {| configs_get := sim_configs_get;
     config_remove := sim_config_remove;
     configs_create := sim_configs_create;
     config_reload := sim_config_reload;
     services_create := sim_services_create;
     service_reload := sim_service_reload;
     services_list := sim_services_list;
     nodes_list := sim_nodes_list;
     node_reload := sim_node_reload |}.

(** ** A small cluster *)

Definition owner_row : UserRow :=
  {| u_username := Some "boss"; u_full_name := "The Boss";
     u_permission_level := OWNER; u_public_ssh_key := None |}.

Definition member_row : UserRow :=
  {| u_username := Some "alice"; u_full_name := "Alice";
     u_permission_level := USER; u_public_ssh_key := None |}.

Definition keyed_row : UserRow :=
  {| u_username := Some "bob"; u_full_name := "Bob";
     u_permission_level := USER; u_public_ssh_key := Some "ssh-ed25519 BOB" |}.

Definition node1 : Node :=
  {| node_id := "n1"; node_state := "ready"; node_availability := "active";
     node_hostname := "gpu-box-1" |}.
Definition node2 : Node :=
  {| node_id := "n2"; node_state := "down"; node_availability := "active";
     node_hostname := "gpu-box-2" |}.
Definition node3 : Node :=
  {| node_id := "n3"; node_state := "ready"; node_availability := "drain";
     node_hostname := "gpu-box-3" |}.

Definition daemon0 : Daemon :=
  {| d_configs := [{| config_id := "id-beer_ssh-key_7"; config_name := "beer_ssh-key_7" |}];
     d_services := [];
     d_nodes := [("worker", node1); ("worker", node2); ("worker", node3);
                 ("manager", {| node_id := "n0"; node_state := "ready";
                                node_availability := "active";
                                node_hostname := "head" |})] |}.

Definition box (ip : string) : WorkerRow :=
  {| w_external_ip := ip; w_volumes_root := "/data/volumes" |}.

Definition state0 : State Daemon :=
  {| users := <["1" := owner_row]> (<["42" := member_row]> (<["7" := keyed_row]> ∅));
     workers := <["gpu-box-1" := box "10.0.0.1"]> (<["gpu-box-2" := box "10.0.0.2"]> ∅);
     gpus := [{| g_uuid := "GPU-aaaa"; g_worker := "gpu-box-1"; g_available := true |};
              {| g_uuid := "GPU-bbbb"; g_worker := "gpu-box-1"; g_available := false |};
              {| g_uuid := "GPU-cccc"; g_worker := "gpu-box-2"; g_available := true |}];
     docker := daemon0;
     clock := PyDatetime.Build_datetime 2023 12 31 22 15 9 123456;
     calls := [];
     db_fault := None |}.

Definition boss : RequestUser :=
  {| user_id := "1"; username := Some "boss"; full_name := "The Boss" |}.
Definition alice : RequestUser :=
  {| user_id := "42"; username := Some "alice_new"; full_name := "Alice" |}.
Definition bob : RequestUser :=
  {| user_id := "7"; username := Some "bob"; full_name := "Bob" |}.
Definition stranger : RequestUser :=
  {| user_id := "99"; username := None; full_name := "Nobody" |}.

Definition job0 : JobRequestModel :=
  {| job_user_id := "7"; worker_hostname := "gpu-box-1"; expected_duration := 5;
     image := "beer/cuda:latest";
     job_gpus := [{| gpu_uuid := "GPU-aaaa" |}; {| gpu_uuid := "GPU-bbbb" |}];
     volume_mount := "/workspace" |}.

Definition new_box : WorkerModel :=
  {| wm_hostname := "gpu-box-9"; wm_external_ip := "";
     wm_volumes_root := "/data/volumes" |}.

Definition ghost_job : JobRequestModel :=
  {| job_user_id := "7"; worker_hostname := "gpu-box-9"; expected_duration := 5;
     image := "beer/cuda:latest"; job_gpus := []; volume_mount := "/workspace" |}.

(** A job whose duration runs past the last year a datetime can hold. *)
Definition endless_job : JobRequestModel :=
  {| job_user_id := "7"; worker_hostname := "gpu-box-1";
     expected_duration := 100000000;
     image := "beer/cuda:latest"; job_gpus := []; volume_mount := "/workspace" |}.

(** The same cluster with a running job that uses bob's key config. *)
Definition busy_daemon : Daemon :=
  {| d_configs := d_configs daemon0;
     d_services := [({| service_id := "7_01012023000000";
                        service_labels := [("beer.user_id", "7")] |},
                     ["beer_ssh-key_7"])];
     d_nodes := d_nodes daemon0 |}.

Definition busy_state : State Daemon :=
  {| users := users state0; workers := workers state0; gpus := gpus state0;
     docker := busy_daemon; clock := clock state0; calls := [];
     db_fault := None |}.

(** The same cluster while the storage backend refuses writes. *)
Definition broken_state : State Daemon :=
  {| users := users state0; workers := workers state0; gpus := gpus state0;
     docker := daemon0; clock := clock state0; calls := [];
     db_fault := Some "database is locked" |}.

(** A client whose config lookups fail with an error of the daemon. *)
Definition flaky_client : DockerClient Daemon :=
  {| configs_get := fun _ d => (Raise (APIError "connection reset by peer"), d);
     config_remove := sim_config_remove;
     configs_create := sim_configs_create;
     config_reload := sim_config_reload;
     services_create := sim_services_create;
     service_reload := sim_service_reload;
     services_list := sim_services_list;
     nodes_list := sim_nodes_list;
     node_reload := sim_node_reload |}.

(** A client whose node listing is out of date: it still shows every node
    as ready and active; only a reload gives the node's present status. *)
Definition lagging_client : DockerClient Daemon :=
  {| configs_get := sim_configs_get;
     config_remove := sim_config_remove;
     configs_create := sim_configs_create;
     config_reload := sim_config_reload;
     services_create := sim_services_create;
     service_reload := sim_service_reload;
     services_list := sim_services_list;
     nodes_list := fun role d =>
       (Ok (map (fun n => {| node_id := node_id n; node_state := "ready";
                             node_availability := "active";
                             node_hostname := node_hostname n |})
              (map snd (List.filter (fun rn => String.eqb rn.1 role) (d_nodes d)))), d);
     node_reload := sim_node_reload |}.

End Sim.

(* ===================================================================== *)
(** * Vocabulary of the statements *)
(* ===================================================================== *)

Section Vocabulary.
Context {D : Type}.

(** The level the registry stores for an id, if it has a record. *)
Definition stored_level (st : State D) (uid : string) : option PermissionLevel :=
  u_permission_level <$> users st !! uid.

Definition registered (st : State D) (uid : string) : Prop :=
  is_Some (users st !! uid).

(** [hasKey]: the key column of the user's row is populated. *)
Definition has_key (st : State D) (uid : string) : bool :=
  match users st !! uid with
  | Some u => bool_decide (is_Some (u_public_ssh_key u))
  | None => false
  end.

(** The admission condition: a stored level no weaker than the required
    one, and a registered caller when the required level is [USER]. *)
Definition admits (st : State D) (uid : string) (required : PermissionLevel) : Prop :=
  (∃ l, stored_level st uid = Some l ∧
        (PermissionLevel_value l <= PermissionLevel_value required)%Z) ∧
  (required = USER → registered st uid).

(** The remediation hint: one line per Admin/Owner that has a username. *)
Definition admin_hint (st : State D) : string :=
  PyStr.join LF
    (omap (fun kv : string * UserRow => (fun n => "- @" +:+ n) <$> u_username kv.2)
       (filter (fun kv : string * UserRow => bool_decide
                  (PermissionLevel_value (u_permission_level kv.2) <= 1)%Z)
          (map_to_list (users st)))).

(** The state the permission check leaves: the entry and the contact-info
    refresh logged, the caller's contact fields rewritten. *)
Definition refreshed (ru : RequestUser) (required : PermissionLevel)
    (st : State D) : State D :=
  log_call (CUserUpdateDetails (user_id ru))
    (set_users (alter (fun u =>
       {| u_username := username ru; u_full_name := full_name ru;
          u_permission_level := u_permission_level u;
          u_public_ssh_key := u_public_ssh_key u |}) (user_id ru))
       (log_call (CPermissionCheck (user_id ru) required) st)).

End Vocabulary.

(** The entry points that take a requesting user and return the
    permission check's answer when it is not [None]. *)
Inductive Request :=
| RegisterUser (uid : string)
| SetSshKey (ssh_key : string)
| CheckSshKey
| Job (job : JobRequestModel)
| JobList
| ListResources (only_online only_available : option bool).

Definition handle {D} (client : DockerClient D) (ru : RequestUser) (r : Request)
  : M D ManagerAnswer :=
  match r with
  | RegisterUser uid => Service.register_user ru uid
  | SetSshKey k => Service.set_ssh_key client ru k
  | CheckSshKey => Service.check_ssh_key ru
  | Job job => Service.dispatch client ru job
  | JobList => Service.job_list client ru
  | ListResources o a => Service.list_resources client ru o a
  end.

(** The level each of them passes to [permission_check]. *)
Definition required_level (r : Request) : PermissionLevel :=
  match r with
  | RegisterUser _ => ADMIN
  | _ => USER
  end.

(** A computation only ever appends to the call log. *)
Definition extends_log {D A} (m : M D A) : Prop :=
  ∀ s, ∃ cs, calls (m s).2 = calls s ++ cs.

(** What a refused caller gets back: the check's answer, or its exception. *)
Definition refusal (r : Result (option ManagerAnswer)) : Result ManagerAnswer :=
  match r with
  | Ok (Some err) => Ok err
  | Ok None => Raise ValueError
  | Raise e => Raise e
  end.

(** Modelled from the spec: "re-fetches each node's live status".  Each
    node of the list is asked for again from the daemon through the client's
    [node_reload], in order; the first failure ends it. *)
Fixpoint refetch {D} (client : DockerClient D) (nodes : list Node) (d : D)
  : Result (list Node) * D :=
  match nodes with
  | [] => (Ok [], d)
  | node :: rest =>
      match node_reload client node d with
      | (Ok live, d1) =>
          match refetch client rest d1 with
          | (Ok lives, d2) => (Ok (live :: lives), d2)
          | (Raise e, d2) => (Raise e, d2)
          end
      | (Raise e, d1) => (Raise e, d1)
      end
  end.

(** Every node of a list re-fetched, in order: what the loop of
    [list_resources] sees. *)
Fixpoint reload_all {D} (client : DockerClient D) (nodes : list Node)
  : M D (list Node) :=
  match nodes with
  | [] => ret []
  | node :: rest =>
      let* node := Service.docker_node_reload client node in
      let* rest := reload_all client rest in
      ret (node :: rest)
  end.

(** The hostnames of the nodes reporting ready and active. *)
Definition online_hostnames (nodes : list Node) : list string :=
  map node_hostname (List.filter Service.is_online nodes).

(** [sat m s Q]: running [m] from [s] ends in a result and a state that
    satisfy [Q]. *)
Definition sat {D A} (m : M D A) (s : State D)
    (Q : Result A -> State D -> Prop) : Prop :=
  Q (m s).1 (m s).2.

(** A handler that starts with the check and returns its answer. *)
Definition checked_handler {D} (ru : RequestUser) (required : PermissionLevel)
    (body : M D ManagerAnswer) : M D ManagerAnswer :=
  let* permission_error := Service.permission_check ru required in
  match permission_error with
  | Some err => ret err
  | None => body
  end.

(** The calls [set_ssh_key] can add after the check: a removal of the
    old config, the creation of the new one, the write of the key. *)
Definition key_calls (uid key : string) (removed : option string)
    (created saved : bool) : list Call :=
  from_option (fun n => [CConfigRemove n]) [] removed ++
  (if created then [CConfigCreate (_CONFIG_PREFIX +:+ uid) key] else []) ++
  (if saved then [CUserSave uid] else []).

(** The key column of a row set. *)
Definition with_key (key : string) (u : UserRow) : UserRow :=
  {| u_username := u_username u; u_full_name := u_full_name u;
     u_permission_level := u_permission_level u;
     u_public_ssh_key := Some key |}.

(** A computation leaves the log and the registry tables as they are
    (it may still talk to Docker). *)
Definition keeps_store {D A} (m : M D A) : Prop :=
  ∀ s, calls (m s).2 = calls s ∧ users (m s).2 = users s ∧
       workers (m s).2 = workers s ∧ gpus (m s).2 = gpus s.

(** The handlers that only read. *)
Definition reads_only (r : Request) : bool :=
  match r with
  | CheckSshKey | JobList | ListResources _ _ => true
  | _ => false
  end.

(* ===================================================================== *)
(** * Theorems *)
(* ===================================================================== *)

(** ** PermissionLevel *)

Lemma higher_permission_total p : is_Some (higher_permission p).
Proof. destruct p; eexists; reflexivity. Qed.

Lemma higher_permission_never_user p : higher_permission p ≠ Some USER.
Proof. destruct p; discriminate. Qed.

(** ** The permission check *)

Section PermissionCheck.
Context {D : Type}.
Implicit Types (st : State D) (ru : RequestUser).

Lemma stored_level_refreshed ru required st uid :
  stored_level (refreshed ru required st) uid = stored_level st uid.
Proof.
  unfold stored_level, refreshed. simpl.
  destruct (decide (user_id ru = uid)) as [->|Hne].
  - rewrite lookup_alter_eq. by destruct (users st !! uid).
  - by rewrite lookup_alter_ne.
Qed.

Lemma registered_refreshed ru required st uid :
  registered (refreshed ru required st) uid <-> registered st uid.
Proof.
  unfold registered, refreshed. simpl.
  destruct (decide (user_id ru = uid)) as [->|Hne].
  - rewrite lookup_alter_eq. rewrite fmap_is_Some. done.
  - by rewrite lookup_alter_ne.
Qed.

(** The check in closed form. *)
Lemma permission_check_run ru required st :
  Service.permission_check ru required st =
  (if bool_decide (required = USER) && negb (bool_decide (registered st (user_id ru)))
   then Ok (Some {| code := NOT_REGISTERED_ERROR;
                    data := [("admins", VStr (admin_hint (refreshed ru required st)))] |})
   else match stored_level st (user_id ru) with
        | Some l =>
            if bool_decide (PermissionLevel_value l <= PermissionLevel_value required)%Z
            then Ok None else Raise (ValidationError "data")
        | None => Raise (ValidationError "data")
        end,
   refreshed ru required st).
Proof.
  unfold Service.permission_check, bind, modify, Registry.User_update_details,
    Registry.User_is_registered, Registry.User_get_admins,
    Registry.User_permission_check, Service.answer, Service.ReturnCodes_attr,
    lift, get, ret, modify.
  simpl. fold (refreshed ru required st).
  unfold stored_level, registered.
  destruct (bool_decide (required = USER)); simpl; rewrite ?lookup_alter_eq;
    destruct (users st !! user_id ru) as [u|] eqn:Hu; simpl;
    rewrite ?lookup_alter_eq, ?Hu; simpl; try reflexivity;
    by destruct (bool_decide _).
Qed.

Lemma permission_check_state ru required st :
  (Service.permission_check ru required st).2 = refreshed ru required st.
Proof. by rewrite permission_check_run. Qed.

Lemma users_refreshed_absent ru required st :
  users st !! user_id ru = None -> users (refreshed ru required st) = users st.
Proof.
  intros H. unfold refreshed. simpl. apply map_eq. intros i.
  destruct (decide (user_id ru = i)) as [<-|Hne].
  - by rewrite lookup_alter_eq, H.
  - by rewrite lookup_alter_ne.
Qed.

Lemma admits_iff st uid required :
  admits st uid required <->
  ∃ l, stored_level st uid = Some l ∧
       (PermissionLevel_value l <= PermissionLevel_value required)%Z.
Proof.
  unfold admits. split; [tauto|]. intros [l [Hl Hle]]. split; [eauto|].
  intros _. unfold registered. unfold stored_level in Hl.
  destruct (users st !! uid); [eauto | discriminate].
Qed.

Lemma permission_check_ok_iff ru required st :
  (Service.permission_check ru required st).1 = Ok None <->
  admits st (user_id ru) required.
Proof.
  rewrite permission_check_run, admits_iff. simpl.
  unfold registered, stored_level.
  destruct (users st !! user_id ru) as [u|] eqn:Hu; simpl.
  - rewrite andb_false_r. case_bool_decide; split.
    + intros _. eauto.
    + done.
    + discriminate.
    + intros [l [[= <-] Hle]]. done.
  - split.
    + destruct (_ && _); discriminate.
    + intros [l [[=] _]].
Qed.

End PermissionCheck.

(** ** Admission *)

Lemma admin_hint_refreshed {D} ru required (st : State D) :
  ¬ registered st (user_id ru) ->
  admin_hint (refreshed ru required st) = admin_hint st.
Proof.
  intros Hn. unfold admin_hint. rewrite users_refreshed_absent; [done|].
  unfold registered in Hn. destruct (users st !! user_id ru); [|done].
  exfalso. eauto.
Qed.

(** C2.  The permission check admits the caller (returns [None]) exactly
    when the registry stores for the caller a level numerically no greater
    than the required one and, when the required level is [USER], the caller
    is registered.  For an unregistered caller and required level [USER] the
    check answers [NOT_REGISTERED_ERROR], an error code, whose data carries
    under ["admins"] the usernames of the current Admin/Owner users. *)
Theorem permission_check_admits_iff {D} (ru : RequestUser)
    (required : PermissionLevel) (st : State D) :
  ((Service.permission_check ru required st).1 = Ok None <->
   admits st (user_id ru) required) ∧
  (required = USER -> ¬ registered st (user_id ru) ->
   (Service.permission_check ru required st).1
   = Ok (Some {| code := NOT_REGISTERED_ERROR;
                 data := [("admins", VStr (admin_hint st))] |}) ∧
   is_error NOT_REGISTERED_ERROR = true).
Proof.
  split; [apply permission_check_ok_iff|].
  intros -> Hn. split; [|reflexivity].
  rewrite permission_check_run. simpl.
  rewrite (bool_decide_eq_false_2 _ Hn). simpl.
  by rewrite admin_hint_refreshed.
Qed.

Lemma permission_check_unregistered_user_witness :
  (USER = USER ∧ ¬ registered Sim.state0 (user_id Sim.stranger)) ∧
  (Service.permission_check Sim.stranger USER Sim.state0).1
  = Ok (Some {| code := NOT_REGISTERED_ERROR;
                data := [("admins", VStr (admin_hint Sim.state0))] |}).
Proof.
  assert (Hn : ¬ registered Sim.state0 (user_id Sim.stranger)).
  { vm_compute. intros [x Hx]. discriminate Hx. }
  split; [split; [reflexivity | exact Hn]|].
  exact (proj1 (proj2 (permission_check_admits_iff Sim.stranger USER Sim.state0)
                  eq_refl Hn)).
Defined.

Example admin_hint_state0 : admin_hint Sim.state0 = "- @boss".
Proof. vm_compute. reflexivity. Qed.

(** ** Escalation target *)

(** C10.  [higher_permission] is defined on all three levels; it maps
    [OWNER] to [OWNER] itself, [ADMIN] to [OWNER] and [USER] to [ADMIN]; so
    the check guarding a grant of [OWNER] is the check at [OWNER], which
    admits any caller whose stored level is [OWNER]. *)
Theorem higher_permission_fixed_at_owner {D} :
  (∀ p, is_Some (higher_permission p)) ∧
  higher_permission OWNER = Some OWNER ∧
  higher_permission ADMIN = Some OWNER ∧
  higher_permission USER = Some ADMIN ∧
  (∀ (st : State D) (ru : RequestUser),
     stored_level st (user_id ru) = Some OWNER ->
     ∃ target, higher_permission OWNER = Some target ∧
               (Service.permission_check ru target st).1 = Ok None).
Proof.
  split; [apply higher_permission_total|].
  repeat (split; [reflexivity|]).
  intros st ru Hl. exists OWNER. split; [reflexivity|].
  apply permission_check_ok_iff, admits_iff. exists OWNER. split; [done|]. simpl. lia.
Qed.

Lemma higher_permission_owner_witness :
  stored_level Sim.state0 (user_id Sim.boss) = Some OWNER ∧
  ∃ target, higher_permission OWNER = Some target ∧
            (Service.permission_check Sim.boss target Sim.state0).1 = Ok None.
Proof.
  split; [reflexivity|].
  exact (proj2 (proj2 (proj2 (proj2 higher_permission_fixed_at_owner)))
           Sim.state0 Sim.boss eq_refl).
Defined.

(** ** Error classification *)

(** C9, as the code has it.  [is_error] is the text test on the member's
    name: it holds exactly when the lower-cased name contains ["error"].  On
    the ten defined codes that makes the five [*_ERROR] members errors and
    the other five not. *)
Theorem is_error_reads_the_name (c : ReturnCodes) :
  is_error c = PyStr.contains "error" (PyStr.lower (ReturnCodes_name c)) ∧
  (is_error c = true <->
   c ∈ [DB_ERROR; PERMISSION_ERROR; ALREADY_REGISTERED_ERROR;
        NOT_REGISTERED_ERROR; KEY_MISSING_ERROR]).
Proof.
  split; [reflexivity|].
  split; intros H.
  - destruct c; try (vm_compute in H; discriminate H);
      match goal with |- ?P => exact (bool_decide_eq_true_1 P eq_refl) end.
  - destruct c; try reflexivity; exfalso;
      match type of H with ?P => exact (bool_decide_eq_false_1 P eq_refl H) end.
Qed.

(** C9, counterexample.  The classification is not a tag fixed apart from
    the spelling: the storage-failure code is an error under the name
    [DB_ERROR], and the same test on the respelling [DB_FAILURE] says it is
    not, while a success code spelled [NO_ERROR] would count as an error. *)
Lemma is_error_depends_on_spelling :
  is_error DB_ERROR = true ∧
  is_error_of_name "DB_FAILURE" = false ∧
  is_error_of_name "NO_ERROR" = true.
Proof. repeat split; reflexivity. Qed.

(** ** Undefined outcome codes *)

(** C3, at [/ready].  The handler evaluates [ReturnCodes.READY]; the class
    defines no member of that name, so the call raises [AttributeError] and
    no envelope is returned.  The other names the handlers use without a
    definition are listed with it. *)
Theorem is_ready_raises {D} (st : State D) :
  Service.is_ready st = (Raise (AttributeError "READY"), st) ∧
  Forall (fun attr => ReturnCodes_getattr attr = None)
    ["READY"; "KEY_IN_USE_ERROR"; "RUNTIME_ERROR"; "SET_KEY_SUCCESSFUL";
     "KEY_CHECK"; "JOB_LIST"].
Proof.
  split; [reflexivity|]. repeat constructor.
Qed.

(** ** [/set_permission] *)

Section SetPermission.
Context {D : Type}.
Implicit Types (st : State D) (ru : RequestUser).

Lemma permission_check_admitted ru required st :
  admits st (user_id ru) required ->
  Service.permission_check ru required st = (Ok None, refreshed ru required st).
Proof.
  intros H. apply permission_check_ok_iff in H.
  pose proof (permission_check_state ru required st) as Hs.
  destruct (Service.permission_check ru required st) as [r s1].
  simpl in *. by subst.
Qed.

(** A caller that is not admitted at a level other than [USER] makes the
    check raise: the refusal is built without [data]. *)
Lemma permission_check_refused ru required st :
  required ≠ USER -> ¬ admits st (user_id ru) required ->
  Service.permission_check ru required st
  = (Raise (ValidationError "data"), refreshed ru required st).
Proof.
  intros Hne Hn. rewrite admits_iff in Hn.
  rewrite permission_check_run.
  rewrite (bool_decide_eq_false_2 _ Hne). simpl.
  destruct (stored_level st (user_id ru)) as [l|]; [|done].
  case_bool_decide; [|done]. exfalso. eauto.
Qed.

Lemma set_permission_admitted ru uid level required st :
  higher_permission level = Some required ->
  admits st (user_id ru) required ->
  Service.set_permission ru uid level st
  = (Ok {| code := PERMISSION_ERROR; data := [] |}, refreshed ru required st).
Proof.
  intros Hh Ha. unfold Service.set_permission.
  unfold bind at 1. unfold lift. rewrite Hh. simpl.
  unfold bind. by rewrite (permission_check_admitted _ _ _ Ha).
Qed.

Lemma set_permission_refused ru uid level required st :
  higher_permission level = Some required ->
  ¬ admits st (user_id ru) required ->
  Service.set_permission ru uid level st
  = (Raise (ValidationError "data"), refreshed ru required st).
Proof.
  intros Hh Hn. unfold Service.set_permission.
  unfold bind at 1. unfold lift. rewrite Hh. simpl.
  unfold bind. rewrite permission_check_refused; [done| |done].
  intros ->. by apply (higher_permission_never_user level).
Qed.

End SetPermission.

(** C1, where the code departs from it.  When the caller passes the
    permission check at the escalation target of the requested level,
    [set_permission] answers [PERMISSION_ERROR] and the target user's stored
    level stays what it was: the test on the check's result is inverted
    ([if not permission_check(...)] is true for the admitting [None]). *)
Theorem set_permission_refuses_admitted_caller {D} (ru : RequestUser)
    (uid : string) (level required : PermissionLevel) (st : State D) :
  higher_permission level = Some required ->
  (Service.permission_check ru required st).1 = Ok None ->
  (Service.set_permission ru uid level st).1
  = Ok {| code := PERMISSION_ERROR; data := [] |} ∧
  stored_level (Service.set_permission ru uid level st).2 uid = stored_level st uid.
Proof.
  intros Hh Hc. apply permission_check_ok_iff in Hc.
  rewrite (set_permission_admitted _ _ _ _ _ Hh Hc). simpl.
  split; [reflexivity | apply stored_level_refreshed].
Qed.

Lemma set_permission_owner_grants_admin_witness :
  (higher_permission ADMIN = Some OWNER ∧
   (Service.permission_check Sim.boss OWNER Sim.state0).1 = Ok None) ∧
  (Service.set_permission Sim.boss "42" ADMIN Sim.state0).1
  = Ok {| code := PERMISSION_ERROR; data := [] |} ∧
  stored_level (Service.set_permission Sim.boss "42" ADMIN Sim.state0).2 "42"
  = stored_level Sim.state0 "42".
Proof.
  assert (Hc : (Service.permission_check Sim.boss OWNER Sim.state0).1 = Ok None)
    by (vm_compute; reflexivity).
  split; [split; [reflexivity | exact Hc]|].
  exact (set_permission_refuses_admitted_caller Sim.boss "42" ADMIN OWNER Sim.state0
           eq_refl Hc).
Defined.

Example registered_target_keeps_level :
  registered Sim.state0 "42" ∧ stored_level Sim.state0 "42" = Some USER.
Proof. split; [eexists|]; reflexivity. Qed.

(** ** The call log *)

Create HintDb extlog discriminated.

Section CallLog.
Context {D : Type}.
Implicit Types (st s : State D).

Lemma ext_ret {A} (a : A) : extends_log (D:=D) (ret a).
Proof. intros s. exists []. simpl. by rewrite app_nil_r. Qed.

Lemma ext_raise {A} e : extends_log (D:=D) (A:=A) (raise e).
Proof. intros s. exists []. simpl. by rewrite app_nil_r. Qed.

Lemma ext_lift {A} (r : Result A) : extends_log (D:=D) (lift r).
Proof. intros s. exists []. simpl. by rewrite app_nil_r. Qed.

Lemma ext_get : extends_log (D:=D) get.
Proof. intros s. exists []. simpl. by rewrite app_nil_r. Qed.

Lemma ext_log c : extends_log (D:=D) (modify (log_call c)).
Proof. intros s. by exists [c]. Qed.

Lemma ext_bind {A B} (m : M D A) (k : A -> M D B) :
  extends_log m -> (∀ a, extends_log (k a)) -> extends_log (bind m k).
Proof.
  intros Hm Hk s. unfold bind. destruct (Hm s) as [cs Hcs].
  destruct (m s) as [[a|e] s1]; simpl in *.
  - destruct (Hk a s1) as [cs' Hcs']. exists (cs ++ cs').
    by rewrite Hcs', Hcs, app_assoc.
  - by exists cs.
Qed.

Lemma ext_try {A} (m : M D A) (h : exn -> M D A) :
  extends_log m -> (∀ e, extends_log (h e)) -> extends_log (try_except m h).
Proof.
  intros Hm Hh s. unfold try_except. destruct (Hm s) as [cs Hcs].
  destruct (m s) as [[a|e] s1]; simpl in *.
  - by exists cs.
  - destruct (Hh e s1) as [cs' Hcs']. exists (cs ++ cs').
    by rewrite Hcs', Hcs, app_assoc.
Qed.

Lemma ext_on_docker {A} (f : D -> Result A * D) :
  extends_log (Service.on_docker f).
Proof.
  intros s. exists []. unfold Service.on_docker.
  destruct (f (docker s)) as [r d]. simpl. by rewrite app_nil_r.
Qed.

Lemma ext_update_details uid un fn :
  extends_log (D:=D) (Registry.User_update_details uid un fn).
Proof. intros s. by exists [CUserUpdateDetails uid]. Qed.

Lemma ext_user_register uid l : extends_log (D:=D) (Registry.User_register uid l).
Proof.
  intros s. exists [CUserRegister uid l].
  unfold Registry.User_register, bind, modify, get; simpl.
  by destruct (db_fault s).
Qed.

Lemma ext_user_save uid k :
  extends_log (D:=D) (Registry.User_save_public_ssh_key uid k).
Proof. intros s. by exists [CUserSave uid]. Qed.

Lemma ext_worker_register wm : extends_log (D:=D) (Registry.Worker_register wm).
Proof.
  intros s. exists [CWorkerRegister (wm_hostname wm)].
  unfold Registry.Worker_register, bind, modify, get; simpl.
  by destruct (db_fault s).
Qed.

End CallLog.

#[global] Hint Resolve ext_ret ext_raise ext_lift ext_get ext_log ext_on_docker
  ext_update_details ext_user_register ext_user_save ext_worker_register : extlog.

(** Walks a handler body: binds and handlers split, branches are taken
    one by one, primitives are closed from the hint base. *)
Ltac ext_step :=
  first
    [ progress cbv zeta | apply ext_bind | apply ext_try
    | match goal with
      | |- extends_log (if ?b then _ else _) => destruct b
      | |- extends_log (match ?x with _ => _ end) => destruct x
      | |- ∀ _, _ => intros ?
      end
    | solve [eauto with extlog] ].

Ltac ext_log := repeat ext_step.

Section HandlerLogs.
Context {D : Type} (client : DockerClient D).

Lemma ext_answer attr d : extends_log (D:=D) (Service.answer attr d).
Proof. unfold Service.answer, Service.ReturnCodes_attr. ext_log. Qed.

Lemma ext_is_registered uid : extends_log (D:=D) (Registry.User_is_registered uid).
Proof. unfold Registry.User_is_registered. ext_log. Qed.

Lemma ext_get_admins : extends_log (D:=D) Registry.User_get_admins.
Proof. unfold Registry.User_get_admins. ext_log. Qed.

Lemma ext_user_permission_check uid l :
  extends_log (D:=D) (Registry.User_permission_check uid l).
Proof. unfold Registry.User_permission_check. ext_log. Qed.

Lemma ext_user_get_by_id pk : extends_log (D:=D) (Registry.User_get_by_id pk).
Proof. unfold Registry.User_get_by_id. ext_log. Qed.

Lemma ext_worker_get_by_id pk : extends_log (D:=D) (Registry.Worker_get_by_id pk).
Proof. unfold Registry.Worker_get_by_id. ext_log. Qed.

Lemma ext_by_workers ids : extends_log (D:=D) (Registry.GPU_by_workers ids).
Proof. unfold Registry.GPU_by_workers. ext_log. Qed.

Lemma ext_configs_get n : extends_log (Service.client_configs_get client n).
Proof. unfold Service.client_configs_get. ext_log. Qed.

Lemma ext_config_remove c : extends_log (Service.docker_config_remove client c).
Proof. unfold Service.docker_config_remove. ext_log. Qed.

Lemma ext_configs_create n k : extends_log (Service.client_configs_create client n k).
Proof. unfold Service.client_configs_create. ext_log. Qed.

Lemma ext_config_reload c : extends_log (Service.docker_config_reload client c).
Proof. unfold Service.docker_config_reload. ext_log. Qed.

Lemma ext_services_create kw : extends_log (Service.client_services_create client kw).
Proof. unfold Service.client_services_create. ext_log. Qed.

Lemma ext_service_reload sv : extends_log (Service.docker_service_reload client sv).
Proof. unfold Service.docker_service_reload. ext_log. Qed.

Lemma ext_services_list l : extends_log (Service.client_services_list client l).
Proof. unfold Service.client_services_list. ext_log. Qed.

Lemma ext_nodes_list r : extends_log (Service.client_nodes_list client r).
Proof. unfold Service.client_nodes_list. ext_log. Qed.

Lemma ext_online_loop nodes acc : extends_log (Service.online_loop client nodes acc).
Proof.
  revert acc. induction nodes as [|n nodes IH]; intros acc; simpl.
  - apply ext_ret.
  - apply ext_bind; [apply ext_on_docker|].
    intros n'. destruct (Service.is_online n'); apply IH.
Qed.

End HandlerLogs.

#[global] Hint Resolve ext_answer ext_online_loop ext_is_registered ext_get_admins
  ext_user_permission_check ext_user_get_by_id ext_worker_get_by_id ext_by_workers
  ext_configs_get ext_config_remove ext_configs_create ext_config_reload
  ext_services_create ext_service_reload ext_services_list ext_nodes_list : extlog.

(** ** Reasoning about runs *)

Section Sat.
Context {D : Type}.
Implicit Types (s : State D).

Lemma sat_ret {A} (a : A) s Q : Q (Ok a) s -> sat (ret a) s Q.
Proof. done. Qed.

Lemma sat_raise {A} e s (Q : Result A -> State D -> Prop) :
  Q (Raise e) s -> sat (raise e) s Q.
Proof. done. Qed.

Lemma sat_lift {A} (r : Result A) s Q : Q r s -> sat (lift r) s Q.
Proof. done. Qed.

Lemma sat_get s Q : Q (Ok s) s -> sat get s Q.
Proof. done. Qed.

Lemma sat_modify f s Q : Q (Ok ()) (f s) -> sat (modify f) s Q.
Proof. done. Qed.

Lemma sat_bind {A B} (m : M D A) (k : A -> M D B) s Q :
  sat m s (fun r s1 => match r with
                       | Ok a => sat (k a) s1 Q
                       | Raise e => Q (Raise e) s1
                       end) ->
  sat (bind m k) s Q.
Proof. unfold sat, bind. by destruct (m s) as [[a|e] s1]. Qed.

Lemma sat_try {A} (m : M D A) (h : exn -> M D A) s Q :
  sat m s (fun r s1 => match r with
                       | Ok a => Q (Ok a) s1
                       | Raise e => sat (h e) s1 Q
                       end) ->
  sat (try_except m h) s Q.
Proof. unfold sat, try_except. by destruct (m s) as [[a|e] s1]. Qed.

Lemma sat_on_docker {A} (f : D -> Result A * D) s Q :
  (∀ r d, f (docker s) = (r, d) -> Q r (set_docker d s)) ->
  sat (Service.on_docker f) s Q.
Proof.
  intros H. unfold sat, Service.on_docker.
  destruct (f (docker s)) as [r d] eqn:E. simpl. by apply H.
Qed.

Lemma sat_answer attr d s Q :
  Q (match ReturnCodes_getattr attr with
     | Some c => ManagerAnswer_init c d
     | None => Raise (AttributeError attr)
     end) s ->
  sat (Service.answer attr d) s Q.
Proof.
  unfold sat, Service.answer, Service.ReturnCodes_attr, bind, lift, or_raise.
  by destruct (ReturnCodes_getattr attr).
Qed.

Lemma sat_permission_check ru required s Q :
  Q (Service.permission_check ru required s).1 (refreshed ru required s) ->
  sat (Service.permission_check ru required) s Q.
Proof. unfold sat. by rewrite permission_check_state. Qed.

(** The create call as [dispatch] writes it: logged, then refused by the
    SDK for the keyword [mount]. *)
Lemma sat_services_create (client : DockerClient D) kw s
    (Q : Result Service -> State D -> Prop) :
  Q (Raise (TypeError "create() got an unexpected keyword argument 'mount'"))
    (log_call (CServiceCreate kw) s) ->
  sat (Service.client_services_create client kw) s Q.
Proof. intros H. exact H. Qed.

Lemma sat_run {A} (m : M D A) s r s' (Q : Result A -> State D -> Prop) :
  sat m s Q -> m s = (r, s') -> Q r s'.
Proof. unfold sat. intros H E. by rewrite E in H. Qed.

End Sat.

(** One step of a run: the rule for the head of the computation.  Docker
    calls are taken with whatever result they give. *)
Ltac sat_step :=
  lazymatch goal with
  | |- sat (bind _ _) _ _ => apply sat_bind
  | |- sat (try_except _ _) _ _ => apply sat_try
  | |- sat (ret _) _ _ => apply sat_ret
  | |- sat (raise _) _ _ => apply sat_raise
  | |- sat (lift _) _ _ => apply sat_lift
  | |- sat get _ _ => apply sat_get
  | |- sat (modify _) _ _ => apply sat_modify
  | |- sat (Service.answer _ _) _ _ => apply sat_answer
  | |- sat (Service.permission_check _ _) _ _ => apply sat_permission_check
  | |- sat (Service.on_docker _) _ _ =>
      apply sat_on_docker; intros [?|?] ? ?
  | |- sat (Service.client_configs_get _ _) _ _ => unfold Service.client_configs_get
  | |- sat (Service.docker_config_remove _ _) _ _ => unfold Service.docker_config_remove
  | |- sat (Service.client_configs_create _ _ _) _ _ =>
      unfold Service.client_configs_create
  | |- sat (Service.docker_config_reload _ _) _ _ => unfold Service.docker_config_reload
  | |- sat (Service.client_services_create _ _) _ _ => apply sat_services_create
  | |- sat (Service.docker_service_reload _ _) _ _ =>
      unfold Service.docker_service_reload
  | |- sat (Service.client_services_list _ _) _ _ => unfold Service.client_services_list
  | |- sat (Service.client_nodes_list _ _) _ _ => unfold Service.client_nodes_list
  | |- sat (Registry.User_get_by_id _) _ _ => unfold Registry.User_get_by_id
  | |- sat (Registry.Worker_get_by_id _) _ _ => unfold Registry.Worker_get_by_id
  | |- sat (Registry.User_is_registered _) _ _ => unfold Registry.User_is_registered
  | |- sat (Registry.User_register _ _) _ _ => unfold Registry.User_register
  | |- sat (Registry.User_save_public_ssh_key _ _) _ _ =>
      unfold Registry.User_save_public_ssh_key
  | |- sat (Registry.GPU_by_workers _) _ _ => unfold Registry.GPU_by_workers
  | |- sat (if ?b then _ else _) _ _ => destruct b eqn:?
  | |- sat (match ?x with _ => _ end) _ _ => destruct x eqn:?
  | |- match ?r with Ok _ => _ | Raise _ => _ end => destruct r as [?|?] eqn:?
  end; cbv beta iota zeta.

Ltac sat_run := repeat sat_step.

(** Resolves the attribute lookups on the literal names the handlers use. *)
Ltac eval_attrs :=
  repeat match goal with
         | |- context [ReturnCodes_getattr ?n] =>
             let v := eval vm_compute in (ReturnCodes_getattr n) in
             change (ReturnCodes_getattr n) with v
         end;
  cbv beta iota.

(** ** Handlers behind the permission check *)

Section CheckedHandlers.
Context {D : Type} (client : DockerClient D).
Implicit Types (st : State D) (ru : RequestUser).

Lemma handle_checked ru r :
  ∃ body, extends_log body ∧ handle client ru r = checked_handler ru (required_level r) body.
Proof.
  destruct r; simpl; eexists; (split; [|reflexivity]); cbv zeta; ext_log.
Qed.

Lemma calls_refreshed ru required st :
  calls (refreshed ru required st)
  = calls st ++ [CPermissionCheck (user_id ru) required;
                 CUserUpdateDetails (user_id ru)].
Proof. unfold refreshed. simpl. by rewrite <- app_assoc. Qed.

Lemma has_key_refreshed ru required st uid :
  has_key (refreshed ru required st) uid = has_key st uid.
Proof.
  unfold has_key, refreshed. simpl.
  destruct (decide (user_id ru = uid)) as [->|Hne].
  - rewrite lookup_alter_eq. by destruct (users st !! uid).
  - by rewrite lookup_alter_ne.
Qed.

(** The run of such a handler starts with the check; a refusal ends it
    in the state the check left. *)
Lemma checked_handler_run ru required body st :
  extends_log body ->
  (∃ rest, calls (checked_handler ru required body st).2
           = calls st ++ CPermissionCheck (user_id ru) required :: rest) ∧
  ((Service.permission_check ru required st).1 ≠ Ok None ->
   checked_handler ru required body st
   = (refusal (Service.permission_check ru required st).1, refreshed ru required st)).
Proof.
  intros Hb. unfold checked_handler, bind.
  pose proof (permission_check_state ru required st) as Hs.
  destruct (Service.permission_check ru required st) as [[[err|]|e] s1];
    simpl in *; subst s1.
  - split; [|done]. rewrite calls_refreshed. eauto.
  - split; [|done]. destruct (Hb (refreshed ru required st)) as [cs Hcs].
    rewrite Hcs, calls_refreshed, <- app_assoc. simpl. eauto.
  - split; [|done]. rewrite calls_refreshed. eauto.
Qed.

End CheckedHandlers.

(** [/join] in closed form: the upsert is attempted once; the answer
    depends on whether the store takes the write. *)
Lemma add_worker_run {D} (wm : WorkerModel) (host : string) (st : State D) :
  let row := {| w_external_ip := host; w_volumes_root := wm_volumes_root wm |} in
  Service.add_worker wm host st
  = match db_fault st with
    | None =>
        (Ok {| code := WORKER_INFO;
               data := [("info", Registry.Worker_to_dict
                                   {| hostname := wm_hostname wm;
                                      worker_row := row |})] |},
         set_workers (insert (wm_hostname wm) row)
                     (log_call (CWorkerRegister (wm_hostname wm)) st))
    | Some message =>
        (Ok {| code := DB_ERROR; data := [("message", VStr message)] |},
         log_call (CWorkerRegister (wm_hostname wm)) st)
    end.
Proof.
  unfold Service.add_worker, Registry.Worker_register, try_except, bind,
    modify, get; simpl.
  by destruct (db_fault st).
Qed.

(** C5, as the code has it.  In [/register_user], [/set_ssh_key],
    [/check_ssh_key], [/job], [/job_list] and [/list_resources] the
    permission check is the first call.  When it does not admit the caller
    the handler ends there with the check's answer or exception: the only
    write is the contact-info refresh the check itself starts with, the
    worker and GPU tables and the Docker daemon are untouched, and no stored
    level or key changes.  [/ready] and [/join] run no permission check:
    [/ready] issues no call at all and [/join] goes straight to the worker
    upsert. *)
Theorem checked_handlers_check_first {D} (client : DockerClient D)
    (ru : RequestUser) (r : Request) (st : State D) :
  let out := handle client ru r st in
  let chk := Service.permission_check ru (required_level r) st in
  (∃ rest, calls out.2
           = calls st ++ CPermissionCheck (user_id ru) (required_level r) :: rest) ∧
  (chk.1 ≠ Ok None ->
   out = (refusal chk.1, chk.2) ∧
   calls out.2 = calls st ++ [CPermissionCheck (user_id ru) (required_level r);
                              CUserUpdateDetails (user_id ru)] ∧
   workers out.2 = workers st ∧ gpus out.2 = gpus st ∧ docker out.2 = docker st ∧
   (∀ u, stored_level out.2 u = stored_level st u) ∧
   (∀ u, has_key out.2 u = has_key st u)) ∧
  calls (Service.is_ready st).2 = calls st ∧
  (∀ wm host, calls (Service.add_worker wm host st).2
              = calls st ++ [CWorkerRegister (wm_hostname wm)]).
Proof.
  intros out chk. subst out chk.
  destruct (handle_checked client ru r) as [body [Hb ->]].
  destruct (checked_handler_run ru (required_level r) body st Hb) as [Hfirst Hrefused].
  split; [exact Hfirst|].
  split; [|split; [reflexivity
                  | intros wm host; rewrite add_worker_run;
                    by destruct (db_fault st)]].
  intros Hne. rewrite (Hrefused Hne), permission_check_state. simpl.
  split; [reflexivity|]. split; [apply calls_refreshed|].
  repeat (split; [reflexivity|]).
  split; intros u; [apply stored_level_refreshed | apply has_key_refreshed].
Qed.

Lemma refused_register_user_witness :
  (Service.permission_check Sim.alice ADMIN Sim.state0).1 ≠ Ok None ∧
  Service.register_user Sim.alice "100" Sim.state0
  = (Raise (ValidationError "data"), refreshed Sim.alice ADMIN Sim.state0) ∧
  stored_level (Service.register_user Sim.alice "100" Sim.state0).2 "100" = None.
Proof.
  assert (Hne : (Service.permission_check Sim.alice ADMIN Sim.state0).1 ≠ Ok None)
    by (vm_compute; discriminate).
  split; [exact Hne|].
  destruct (checked_handlers_check_first Sim.client Sim.alice (RegisterUser "100")
              Sim.state0) as [_ [H _]].
  destruct (H Hne) as [Heq [_ [_ [_ [_ [Hl _]]]]]].
  split.
  - etransitivity; [exact Heq|]. vm_compute. reflexivity.
  - etransitivity; [apply Hl|]. reflexivity.
Defined.

(** C5, counterexample.  [/join] is an entry point whose first call is a
    registry write with no permission check before it: on the sample cluster
    a worker record appears for a host that had none, and the log holds the
    upsert alone.  And a refused [/register_user] still rewrites the
    caller's contact fields before the refusal. *)
Lemma join_writes_without_check :
  calls Sim.state0 = [] ∧
  calls (Service.add_worker Sim.new_box "10.0.0.9" Sim.state0).2
  = [CWorkerRegister "gpu-box-9"] ∧
  workers Sim.state0 !! "gpu-box-9" = None ∧
  workers (Service.add_worker Sim.new_box "10.0.0.9" Sim.state0).2 !! "gpu-box-9"
  = Some (Sim.box "10.0.0.9") ∧
  (Service.permission_check Sim.alice ADMIN Sim.state0).1 = Raise (ValidationError "data") ∧
  u_username <$> users Sim.state0 !! "42" = Some (Some "alice") ∧
  u_username <$> users (Service.register_user Sim.alice "100" Sim.state0).2 !! "42"
  = Some (Some "alice_new").
Proof. vm_compute. repeat split; reflexivity. Qed.

(** ** [/job]: the target worker *)

Section Dispatch.
Context {D : Type} (client : DockerClient D).
Implicit Types (st : State D) (ru : RequestUser).

Lemma registered_admits_user st uid : registered st uid -> admits st uid USER.
Proof.
  intros [u Hu]. apply admits_iff. exists (u_permission_level u).
  unfold stored_level. rewrite Hu. split; [done|].
  destruct (u_permission_level u); simpl; lia.
Qed.

Lemma dispatch_unknown_worker ru job st :
  registered st (user_id ru) ->
  workers st !! worker_hostname job = None ->
  Service.dispatch client ru job st
  = (Raise (DoesNotExist (worker_hostname job)), refreshed ru USER st).
Proof.
  intros Hr Hw. unfold Service.dispatch. unfold bind at 1.
  rewrite (permission_check_admitted _ _ _ (registered_admits_user _ _ Hr)).
  unfold bind at 1. unfold Registry.Worker_get_by_id, bind, get. simpl.
  by rewrite Hw.
Qed.

End Dispatch.

(** C6, where the code departs from it.  For a registered caller and a job
    whose worker hostname has no Worker record, [dispatch] returns no
    envelope: the lookup's [DoesNotExist] leaves the handler uncaught, before
    any call to the orchestrator. *)
Theorem dispatch_unknown_worker_raises {D} (client : DockerClient D)
    (ru : RequestUser) (job : JobRequestModel) (st : State D) :
  registered st (user_id ru) ->
  workers st !! worker_hostname job = None ->
  (Service.dispatch client ru job st).1 = Raise (DoesNotExist (worker_hostname job)) ∧
  docker (Service.dispatch client ru job st).2 = docker st.
Proof.
  intros Hr Hw. by rewrite (dispatch_unknown_worker client ru job st Hr Hw).
Qed.

Lemma dispatch_ghost_worker_witness :
  (registered Sim.state0 (user_id Sim.bob) ∧
   workers Sim.state0 !! worker_hostname Sim.ghost_job = None) ∧
  (Service.dispatch Sim.client Sim.bob Sim.ghost_job Sim.state0).1
  = Raise (DoesNotExist "gpu-box-9").
Proof.
  assert (Hr : registered Sim.state0 (user_id Sim.bob)) by (eexists; reflexivity).
  assert (Hw : workers Sim.state0 !! worker_hostname Sim.ghost_job = None)
    by reflexivity.
  split; [split; [exact Hr | exact Hw]|].
  exact (proj1 (dispatch_unknown_worker_raises Sim.client Sim.bob Sim.ghost_job
                  Sim.state0 Hr Hw)).
Defined.

(** ** [/set_ssh_key] and [/check_ssh_key] *)

Section Keys.
Context {D : Type} (client : DockerClient D).
Implicit Types (st : State D) (ru : RequestUser).

(** The only envelope the check itself can produce. *)
Lemma permission_check_answer ru required st err :
  (Service.permission_check ru required st).1 = Ok (Some err) ->
  code err = NOT_REGISTERED_ERROR.
Proof.
  rewrite permission_check_run. simpl.
  destruct (_ && _); [by intros [= <-]|].
  destruct (stored_level _ _); [|discriminate].
  case_bool_decide; discriminate.
Qed.

Lemma set_ssh_key_outcome ru key st :
  sat (Service.set_ssh_key client ru key) st (fun r s' =>
    (∀ a, r = Ok a -> code a = NOT_REGISTERED_ERROR) ∧
    (r ≠ Raise (AttributeError "SET_KEY_SUCCESSFUL") ->
     ∀ uid, has_key s' uid = has_key st uid)).
Proof.
  pose proof (has_key_refreshed ru USER st) as Hk.
  pose proof (permission_check_answer ru USER st) as Hans.
  unfold Service.set_ssh_key. sat_run; eval_attrs;
    (split;
     [ intros ? Hx; first [discriminate Hx | injection Hx as <-; by apply Hans]
     | intros Hne uid; first [exact (Hk uid) | exfalso; apply Hne; reflexivity] ]).
Qed.

(** [check_ssh_key] never reports: its only envelope is the refusal of an
    unregistered caller, and an admitted caller gets [AttributeError]. *)
Lemma check_ssh_key_outcome ru st :
  sat (Service.check_ssh_key ru) st (fun r s' =>
    (∀ a, r = Ok a -> code a = NOT_REGISTERED_ERROR) ∧
    (registered st (user_id ru) -> r = Raise (AttributeError "KEY_CHECK"))).
Proof.
  pose proof (permission_check_answer ru USER st) as Hans.
  pose proof (permission_check_ok_iff ru USER st) as Hok.
  pose proof (registered_refreshed ru USER st (user_id ru)) as Hreg.
  unfold Service.check_ssh_key. sat_run; eval_attrs;
    (split;
     [ intros ? Hx; first [discriminate Hx | injection Hx as <-; by apply Hans]
     | intros Hr; try reflexivity ]).
  - apply registered_admits_user, Hok in Hr. congruence.
  - apply Hreg in Hr. destruct Hr as [? Hr]. congruence.
  - apply registered_admits_user, Hok in Hr. congruence.
Qed.

End Keys.

(** C4, where the code departs from it.  A registered user without a key
    sets one: the key is written to the row, and then the handler raises
    [AttributeError] on [ReturnCodes.SET_KEY_SUCCESSFUL] instead of returning
    a success code; the check that follows raises on [ReturnCodes.KEY_CHECK]
    instead of reporting the key as set. *)
Theorem set_ssh_key_saves_then_raises :
  has_key Sim.state0 "42" = false ∧
  (Service.set_ssh_key Sim.client Sim.alice "ssh-ed25519 ALICE" Sim.state0).1
  = Raise (AttributeError "SET_KEY_SUCCESSFUL") ∧
  has_key (Service.set_ssh_key Sim.client Sim.alice "ssh-ed25519 ALICE" Sim.state0).2 "42"
  = true ∧
  (Service.check_ssh_key Sim.alice
     (Service.set_ssh_key Sim.client Sim.alice "ssh-ed25519 ALICE" Sim.state0).2).1
  = Raise (AttributeError "KEY_CHECK").
Proof. vm_compute. repeat split; reflexivity. Qed.

(** ** The datetime model on sample instants *)

Example add_over_new_year :
  PyDatetime.strftime_mdYHMS <$>
    or_raise_option
      (match PyDatetime.timedelta_hours 5 with
       | Ok td => PyDatetime.add (PyDatetime.Build_datetime 2023 12 31 22 15 9 123) td
       | Raise e => Raise e
       end)
  = Some "01012024031509".
Proof. vm_compute. reflexivity. Qed.

Example add_into_leap_day :
  or_raise_option
    (match PyDatetime.timedelta_hours 24 with
     | Ok td => PyDatetime.add (PyDatetime.Build_datetime 2024 2 28 8 0 0 0) td
     | Raise e => Raise e
     end)
  = Some (PyDatetime.Build_datetime 2024 2 29 8 0 0 0).
Proof. vm_compute. reflexivity. Qed.

Example add_backwards :
  or_raise_option
    (match PyDatetime.timedelta_hours (-1) with
     | Ok td => PyDatetime.add (PyDatetime.Build_datetime 2023 3 1 0 30 0 0) td
     | Raise e => Raise e
     end)
  = Some (PyDatetime.Build_datetime 2023 2 28 23 30 0 0).
Proof. vm_compute. reflexivity. Qed.

Example add_past_the_last_year :
  match PyDatetime.timedelta_hours 1 with
  | Ok td => PyDatetime.add (PyDatetime.Build_datetime 9999 12 31 23 30 0 0) td
  | Raise e => Raise e
  end = Raise OverflowError.
Proof. vm_compute. reflexivity. Qed.

Example ordinal_of_a_date :
  PyDatetime.ymd2ord 2024 1 1 = 738886%Z ∧
  PyDatetime.ord2ymd 738886 = (2024, 1, 1)%Z ∧
  PyDatetime.ord2ymd PyDatetime.MAXORDINAL = (9999, 12, 31)%Z.
Proof. vm_compute. repeat split; reflexivity. Qed.

Example read_label_sample :
  PyDatetime.read_label_mdYHMS "01012024031509"
  = Some (PyDatetime.Build_datetime 2024 1 1 3 15 9 0) ∧
  PyDatetime.strftime_mdYHMS (PyDatetime.Build_datetime 997 4 13 22 15 9 0)
  = "0413997221509".
Proof. vm_compute. split; reflexivity. Qed.

(** ** The expiry label *)

Section ExpiryLabel.
Import PyDatetime.
Local Open Scope Z_scope.

Lemma char_digit_digit_char d :
  0 <= d < 10 -> char_digit (digit_char d) = Some d.
Proof.
  intros H.
  assert (d = 0 ∨ d = 1 ∨ d = 2 ∨ d = 3 ∨ d = 4 ∨ d = 5 ∨ d = 6 ∨ d = 7 ∨
          d = 8 ∨ d = 9) as Hd by lia.
  repeat (destruct Hd as [->|Hd]; [reflexivity|]). by subst.
Qed.

Lemma digit_bound_div n b : 0 < b -> 0 <= n < b * 10 -> 0 <= n / b < 10.
Proof.
  intros Hb H. split; [apply Z.div_pos; lia | apply Z.div_lt_upper_bound; lia].
Qed.

Lemma digit_bound_mod n : 0 <= n mod 10 < 10.
Proof. apply Z.mod_pos_bound. lia. Qed.

Lemma digits_pad2 n : 0 <= n < 100 -> digits_value 0 (pad2 n) = Some n.
Proof.
  intros H. unfold pad2. cbn [digits_value].
  rewrite (char_digit_digit_char (n / 10)) by (apply digit_bound_div; lia).
  rewrite (char_digit_digit_char (n mod 10)) by apply digit_bound_mod.
  f_equal. pose proof (Z.div_mod n 10 ltac:(lia)). lia.
Qed.

Lemma digits_pad4 n : 0 <= n < 10000 -> digits_value 0 (pad4 n) = Some n.
Proof.
  intros H. unfold pad4. cbn [digits_value].
  rewrite (char_digit_digit_char (n / 1000)) by (apply digit_bound_div; lia).
  rewrite !(char_digit_digit_char (_ mod 10)) by apply digit_bound_mod.
  f_equal.
  replace (n / 1000) with (n / 10 / 10 / 10) by (rewrite !Z.div_div by lia; done).
  replace (n / 100) with (n / 10 / 10) by (rewrite !Z.div_div by lia; done).
  pose proof (Z.div_mod n 10 ltac:(lia)).
  pose proof (Z.div_mod (n / 10) 10 ltac:(lia)).
  pose proof (Z.div_mod (n / 10 / 10) 10 ltac:(lia)).
  lia.
Qed.

Lemma valid_bounds dt :
  valid dt = true ->
  1 <= year dt <= 9999 ∧ 1 <= month dt <= 12 ∧ 1 <= day dt <= 31 ∧
  0 <= hour dt <= 23 ∧ 0 <= minute dt <= 59 ∧ 0 <= second dt <= 59.
Proof.
  unfold valid, check_date_fields, check_time_fields, MINYEAR, MAXYEAR.
  rewrite !andb_true_iff, !Z.leb_le. intros H.
  assert (days_in_month (year dt) (month dt) <= 31).
  { unfold days_in_month. destruct (_ && _); [lia|].
    assert (∀ m, DAYS_IN_MONTH m <= 31) as Hm; [|apply Hm].
    intros m. unfold DAYS_IN_MONTH.
    destruct m as [|p|p]; try lia.
    do 4 (try destruct p as [p|p|]; try lia). }
  lia.
Qed.

Lemma digits_1 n : 0 <= n < 10 ->
  digits_value 0 (String (digit_char n) EmptyString) = Some n.
Proof.
  intros H. cbn [digits_value]. rewrite char_digit_digit_char by lia. f_equal; lia.
Qed.

Lemma digits_3 n : 0 <= n < 1000 ->
  digits_value 0 (String (digit_char (n / 100)) (pad2 (n mod 100))) = Some n.
Proof.
  intros H. unfold pad2. cbn [digits_value].
  assert (0 <= n mod 100 < 100) by (apply Z.mod_pos_bound; lia).
  rewrite (char_digit_digit_char (n / 100)) by (apply digit_bound_div; lia).
  rewrite (char_digit_digit_char (n mod 100 / 10)) by (apply digit_bound_div; lia).
  rewrite (char_digit_digit_char (n mod 100 mod 10)) by apply digit_bound_mod.
  f_equal. pose proof (Z.div_mod n 100 ltac:(lia)).
  pose proof (Z.div_mod (n mod 100) 10 ltac:(lia)). lia.
Qed.




Lemma read_label_pads (a b : Z) (y : string) (d e f : Z) :
  (1 <= String.length y <= 4)%nat ->
  read_label_mdYHMS (pad2 a +:+ pad2 b +:+ y +:+ pad2 d +:+ pad2 e +:+ pad2 f)
  = (m ← digits_value 0 (pad2 a); d' ← digits_value 0 (pad2 b);
     yv ← digits_value 0 y; h ← digits_value 0 (pad2 d);
     mi ← digits_value 0 (pad2 e); sec ← digits_value 0 (pad2 f);
     match make yv m d' h mi sec 0 with Ok dt => Some dt | Raise _ => None end).
Proof.
  intros Hy.
  destruct y as [|c1 [|c2 [|c3 [|c4 [|c5 y]]]]]; cbn [String.length] in Hy;
    try lia; reflexivity.
Qed.

Lemma read_label_strftime dt :
  valid dt = true ->
  read_label_mdYHMS (strftime_mdYHMS dt) = Some (truncate_to_second dt).
Proof.
  intros Hv. pose proof (valid_bounds dt Hv) as Hb.
  unfold strftime_mdYHMS.
  assert (Hy : (1 <= String.length (fmt_year (year dt)) <= 4)%nat ∧
               digits_value 0 (fmt_year (year dt)) = Some (year dt)).
  { unfold fmt_year.
    destruct (Z.ltb_spec (year dt) 10);
      [split; [change (1 <= 1 <= 4)%nat; lia | apply digits_1; lia]|].
    destruct (Z.ltb_spec (year dt) 100);
      [split; [change (1 <= 2 <= 4)%nat; lia | apply digits_pad2; lia]|].
    destruct (Z.ltb_spec (year dt) 1000);
      [split; [change (1 <= 3 <= 4)%nat; lia | apply digits_3; lia]|].
    split; [change (1 <= 4 <= 4)%nat; lia | apply digits_pad4; lia]. }
  destruct Hy as [Hlen Hval].
  rewrite (read_label_pads _ _ _ _ _ _ Hlen), Hval.
  rewrite !digits_pad2 by lia. cbn [mbind option_bind].
  unfold make.
  assert (valid (truncate_to_second dt) = true) as Hv'.
  { revert Hv. unfold valid, check_time_fields, truncate_to_second.
    cbn [year month day hour minute second microsecond].
    rewrite !andb_true_iff, !Z.leb_le. intros H. repeat split; try apply H; lia. }
  unfold truncate_to_second in *. by rewrite Hv'.
Qed.


End ExpiryLabel.

(** ** [/job]: the workload descriptor *)

Section Descriptor.
Context {D : Type} (client : DockerClient D).
Implicit Types (st : State D) (ru : RequestUser).



End Descriptor.

(** ** [/list_resources] *)

Section Resources.
Context {D : Type} (client : DockerClient D).
Implicit Types (st s : State D) (ru : RequestUser).

(** The loop collects the hostnames of the re-fetched nodes that are
    ready and active, after those it was started with. *)
Lemma online_loop_reload_all nodes acc s :
  Service.online_loop client nodes acc s
  = match reload_all client nodes s with
    | (Ok reloaded, s') => (Ok (acc ++ online_hostnames reloaded), s')
    | (Raise e, s') => (Raise e, s')
    end.
Proof.
  revert acc s. induction nodes as [|n nodes IH]; intros acc s.
  - simpl. unfold ret, online_hostnames. simpl. by rewrite app_nil_r.
  - cbn [Service.online_loop reload_all]. unfold bind, ret.
    destruct (Service.docker_node_reload client n s) as [[n'|e] s1]; [|done].
    destruct (Service.is_online n') eqn:Hon; rewrite IH;
      destruct (reload_all client nodes s1) as [[rs|e] s2]; try done;
      unfold online_hostnames; cbn [List.filter]; rewrite Hon; [|done].
    cbn [map]. by rewrite <- app_assoc.
Qed.

(** Docker calls leave the registry alone. *)
Lemma on_docker_registry {A} (f : D -> Result A * D) s r s' :
  Service.on_docker f s = (r, s') ->
  users s' = users s ∧ workers s' = workers s ∧ gpus s' = gpus s.
Proof.
  unfold Service.on_docker. destruct (f (docker s)) as [r' d].
  by intros [= _ <-].
Qed.

Lemma reload_all_registry nodes s r s' :
  reload_all client nodes s = (r, s') ->
  users s' = users s ∧ workers s' = workers s ∧ gpus s' = gpus s.
Proof.
  revert s r s'. induction nodes as [|n nodes IH]; intros s r s'.
  - by intros [= _ <-].
  - cbn [reload_all]. unfold bind at 1.
    destruct (Service.docker_node_reload client n s) as [[n'|e] s1] eqn:E;
      apply on_docker_registry in E as (Hu & Hw & Hg).
    + unfold bind.
      destruct (reload_all client nodes s1) as [[rs|e] s2] eqn:E2;
        apply IH in E2 as (Hu2 & Hw2 & Hg2); intros [= _ <-];
        by rewrite Hu2, Hw2, Hg2.
    + by intros [= _ <-].
Qed.

(** The workers [GPU.by_workers] returns: the registered ones among the
    given hostnames, each with the GPU rows that name it. *)
Lemma by_workers_scoped ids s resources s' :
  Registry.GPU_by_workers ids s = (Ok resources, s') ->
  (∀ h, In h (map (fun wg => hostname wg.1) resources)
        <-> h ∈ ids ∧ is_Some (workers s !! h)) ∧
  (∀ w gs, In (w, gs) resources ->
           gs = filter (fun g => g_worker g = hostname w) (gpus s)).
Proof.
  unfold Registry.GPU_by_workers, bind, get, ret. intros [= <- <-]. split.
  - intros h. rewrite map_map. cbn [fst hostname].
    rewrite in_map_iff. split.
    + intros [[k row] [<- Hin]]. apply list_elem_of_In, list_elem_of_filter in Hin.
      destruct Hin as [Hk Hin]. apply elem_of_map_to_list in Hin.
      simpl in *. eauto.
    + intros [Hk [row Hrow]]. exists (h, row). split; [done|].
      apply list_elem_of_In, list_elem_of_filter. split; [done|].
      by apply elem_of_map_to_list.
  - intros w gs Hin. apply in_map_iff in Hin as [[k row] [[= <- <-] _]]. done.
Qed.

Lemma list_resources_admitted ru o a st nodes s1 reloaded s2 :
  admits st (user_id ru) USER ->
  Service.client_nodes_list client "worker" (refreshed ru USER st) = (Ok nodes, s1) ->
  reload_all client nodes s1 = (Ok reloaded, s2) ->
  ∃ resources,
    Service.list_resources client ru o a st
    = (Ok {| code := RESOURCES; data := Service.resources_data resources |}, s2) ∧
    Registry.GPU_by_workers (online_hostnames reloaded) s2 = (Ok resources, s2).
Proof.
  intros Ha Hn Hr. unfold Service.list_resources. unfold bind at 1.
  rewrite (permission_check_admitted _ _ _ Ha).
  unfold bind at 1. rewrite Hn.
  unfold bind at 1. rewrite online_loop_reload_all, Hr. cbn [app].
  unfold bind at 1.
  destruct (Registry.GPU_by_workers (online_hostnames reloaded) s2)
    as [r s3] eqn:Hg.
  assert (∃ resources, r = Ok resources ∧ s3 = s2) as (resources & -> & ->).
  { revert Hg. unfold Registry.GPU_by_workers, bind, get, ret.
    intros [= <- <-]. eauto. }
  exists resources. split; [|reflexivity]. reflexivity.
Qed.

(** The code's re-fetch is the client's [node_reload] on each node. *)
Lemma reload_all_refetch nodes s :
  reload_all client nodes s
  = ((refetch client nodes (docker s)).1,
     set_docker (refetch client nodes (docker s)).2 s).
Proof.
  revert s. induction nodes as [|n nodes IH]; intros s.
  - by destruct s.
  - cbn [reload_all refetch]. unfold bind at 1.
    unfold Service.docker_node_reload, Service.on_docker.
    destruct (node_reload client n (docker s)) as [[n'|e] d1]; [|reflexivity].
    cbn [fst snd]. unfold bind. rewrite IH. cbn [docker set_docker].
    by destruct (refetch client nodes d1) as [[lives|e] d2].
Qed.

Lemma resources_data_rows (rows : list (string * WorkerRow)) (gs : list GPURow) :
  Service.resources_data
    (map (fun kv : string * WorkerRow =>
            ({| hostname := kv.1; worker_row := kv.2 |},
             filter (fun g => g_worker g = kv.1) gs)) rows)
  = [("workers",
      VDict (map (fun kv : string * WorkerRow =>
                    (kv.1, VDict [("hostname", VStr kv.1);
                                  ("external_ip", VStr (w_external_ip kv.2));
                                  ("volumes_root", VStr (w_volumes_root kv.2))]))
               rows));
     ("gpus",
      VDict (map (fun kv : string * WorkerRow =>
                    (kv.1, VList (map (fun g => VDict [("uuid", VStr (g_uuid g));
                                                       ("worker", VStr (g_worker g));
                                                       ("available", VBool (g_available g))])
                                    (filter (fun g => g_worker g = kv.1) gs))))
               rows))].
Proof. unfold Service.resources_data. by rewrite !map_map. Qed.

End Resources.

(** C8.  The two flags are not read: whatever their values,
    [list_resources] is the same computation.  For an admitted caller it
    asks the client for the worker-role nodes, asks the client again for each
    of them, and answers [RESOURCES] with two mappings keyed by hostname,
    ["workers"] (hostname, address and volumes root of each record) and
    ["gpus"] (the GPU rows that name the worker).  The hostnames in both are
    the same list, without repetition: exactly those that have a worker
    record and that some re-fetched node reports with state [ready] and
    availability [active].  What the listing itself said of a node's status
    plays no part. *)
Theorem list_resources_online_only {D} (client : DockerClient D)
    (ru : RequestUser) (only_online only_available : option bool)
    (st : State D) (nodes live : list Node) (d1 d2 : D) :
  (∀ o a, Service.list_resources client ru o a
          = Service.list_resources client ru only_online only_available) ∧
  (admits st (user_id ru) USER ->
   nodes_list client "worker" (docker st) = (Ok nodes, d1) ->
   refetch client nodes d1 = (Ok live, d2) ->
   ∃ rows : list (string * WorkerRow),
     NoDup (map fst rows) ∧
     (∀ h row, In (h, row) rows <->
        (∃ n, In n live ∧ node_hostname n = h ∧
              node_state n = "ready" ∧ node_availability n = "active") ∧
        workers st !! h = Some row) ∧
     Service.list_resources client ru only_online only_available st
     = (Ok {| code := RESOURCES;
              data :=
                [("workers",
                  VDict (map (fun kv : string * WorkerRow =>
                                (kv.1, VDict [("hostname", VStr kv.1);
                                              ("external_ip", VStr (w_external_ip kv.2));
                                              ("volumes_root", VStr (w_volumes_root kv.2))]))
                           rows));
                 ("gpus",
                  VDict (map (fun kv : string * WorkerRow =>
                                (kv.1,
                                 VList (map (fun g =>
                                               VDict [("uuid", VStr (g_uuid g));
                                                      ("worker", VStr (g_worker g));
                                                      ("available", VBool (g_available g))])
                                          (filter (fun g => g_worker g = kv.1) (gpus st)))))
                           rows))] |},
        set_docker d2 (refreshed ru USER st))).
Proof.
  split; [reflexivity|]. intros Ha Hn Hr.
  set (s1 := set_docker d1 (refreshed ru USER st)).
  assert (Hn' : Service.client_nodes_list client "worker" (refreshed ru USER st)
                = (Ok nodes, s1)).
  { unfold Service.client_nodes_list, Service.on_docker.
    change (docker (refreshed ru USER st)) with (docker st). by rewrite Hn. }
  assert (Hr' : reload_all client nodes s1
                = (Ok live, set_docker d2 (refreshed ru USER st))).
  { rewrite reload_all_refetch. change (docker s1) with d1. by rewrite Hr. }
  destruct (list_resources_admitted client ru only_online only_available st
              nodes s1 live _ Ha Hn' Hr') as (resources & Hrun & Hg).
  revert Hg. unfold Registry.GPU_by_workers, bind, get, ret.
  change (workers (set_docker d2 (refreshed ru USER st))) with (workers st).
  change (gpus (set_docker d2 (refreshed ru USER st))) with (gpus st).
  intros [= <-].
  exists (filter (fun kv : string * WorkerRow => kv.1 ∈ online_hostnames live)
            (map_to_list (workers st))).
  split; [|split].
  - match goal with |- NoDup (map fst ?l) => change (NoDup (l.*1)) end.
    apply NoDup_fmap_fst.
    + intros k x y Hx Hy. apply list_elem_of_filter in Hx as [_ Hx], Hy as [_ Hy].
      apply elem_of_map_to_list in Hx, Hy. congruence.
    + apply NoDup_filter, NoDup_map_to_list.
  - intros h row. rewrite <- list_elem_of_In, list_elem_of_filter, elem_of_map_to_list.
    cbn [fst].
    assert (h ∈ online_hostnames live <->
            ∃ n, In n live ∧ node_hostname n = h ∧
                 node_state n = "ready" ∧ node_availability n = "active") as ->; [|done].
    unfold online_hostnames. rewrite list_elem_of_In, in_map_iff.
    split.
    + intros [n [<- Hin]]. apply filter_In in Hin as [Hin Hon].
      unfold Service.is_online in Hon. apply andb_true_iff in Hon as [H1 H2].
      apply String.eqb_eq in H1, H2. eauto.
    + intros [n (Hin & <- & H1 & H2)]. exists n. split; [done|].
      apply filter_In. split; [done|]. unfold Service.is_online.
      by rewrite H1, H2.
  - rewrite Hrun. by rewrite resources_data_rows.
Qed.

Lemma list_resources_online_only_witness :
  (admits Sim.state0 (user_id Sim.bob) USER ∧
   nodes_list Sim.lagging_client "worker" (docker Sim.state0)
   = (Ok [{| node_id := "n1"; node_state := "ready"; node_availability := "active";
             node_hostname := "gpu-box-1" |};
          {| node_id := "n2"; node_state := "ready"; node_availability := "active";
             node_hostname := "gpu-box-2" |};
          {| node_id := "n3"; node_state := "ready"; node_availability := "active";
             node_hostname := "gpu-box-3" |}], Sim.daemon0) ∧
   refetch Sim.lagging_client
     [{| node_id := "n1"; node_state := "ready"; node_availability := "active";
         node_hostname := "gpu-box-1" |};
      {| node_id := "n2"; node_state := "ready"; node_availability := "active";
         node_hostname := "gpu-box-2" |};
      {| node_id := "n3"; node_state := "ready"; node_availability := "active";
         node_hostname := "gpu-box-3" |}] Sim.daemon0
   = (Ok [Sim.node1; Sim.node2; Sim.node3], Sim.daemon0)) ∧
  (∃ rows : list (string * WorkerRow),
     (∀ h row, In (h, row) rows <->
        (∃ n, In n [Sim.node1; Sim.node2; Sim.node3] ∧ node_hostname n = h ∧
              node_state n = "ready" ∧ node_availability n = "active") ∧
        workers Sim.state0 !! h = Some row) ∧
     data <$> or_raise_option
       (Service.list_resources Sim.lagging_client Sim.bob (Some false) (Some false)
          Sim.state0).1
     = Some [("workers",
              VDict (map (fun kv : string * WorkerRow =>
                            (kv.1, VDict [("hostname", VStr kv.1);
                                          ("external_ip", VStr (w_external_ip kv.2));
                                          ("volumes_root", VStr (w_volumes_root kv.2))]))
                       rows));
             ("gpus",
              VDict (map (fun kv : string * WorkerRow =>
                            (kv.1,
                             VList (map (fun g =>
                                           VDict [("uuid", VStr (g_uuid g));
                                                  ("worker", VStr (g_worker g));
                                                  ("available", VBool (g_available g))])
                                      (filter (fun g => g_worker g = kv.1)
                                         (gpus Sim.state0)))))
                       rows))]) ∧
  data <$> or_raise_option
    (Service.list_resources Sim.lagging_client Sim.bob (Some false) (Some false)
       Sim.state0).1
  = Some [("workers",
           VDict [("gpu-box-1", VDict [("hostname", VStr "gpu-box-1");
                                       ("external_ip", VStr "10.0.0.1");
                                       ("volumes_root", VStr "/data/volumes")])]);
          ("gpus",
           VDict [("gpu-box-1",
                   VList [VDict [("uuid", VStr "GPU-aaaa"); ("worker", VStr "gpu-box-1");
                                 ("available", VBool true)];
                          VDict [("uuid", VStr "GPU-bbbb"); ("worker", VStr "gpu-box-1");
                                 ("available", VBool false)]])])].
Proof.
  assert (Ha : admits Sim.state0 (user_id Sim.bob) USER).
  { apply registered_admits_user. eexists. reflexivity. }
  assert (Hn : nodes_list Sim.lagging_client "worker" (docker Sim.state0)
    = (Ok [{| node_id := "n1"; node_state := "ready"; node_availability := "active";
              node_hostname := "gpu-box-1" |};
           {| node_id := "n2"; node_state := "ready"; node_availability := "active";
              node_hostname := "gpu-box-2" |};
           {| node_id := "n3"; node_state := "ready"; node_availability := "active";
              node_hostname := "gpu-box-3" |}], Sim.daemon0))
    by (vm_compute; reflexivity).
  assert (Hr : refetch Sim.lagging_client
     [{| node_id := "n1"; node_state := "ready"; node_availability := "active";
         node_hostname := "gpu-box-1" |};
      {| node_id := "n2"; node_state := "ready"; node_availability := "active";
         node_hostname := "gpu-box-2" |};
      {| node_id := "n3"; node_state := "ready"; node_availability := "active";
         node_hostname := "gpu-box-3" |}] Sim.daemon0
    = (Ok [Sim.node1; Sim.node2; Sim.node3], Sim.daemon0))
    by (vm_compute; reflexivity).
  split; [split; [exact Ha | split; [exact Hn | exact Hr]]|].
  split; [|vm_compute; reflexivity].
  destruct (proj2 (list_resources_online_only Sim.lagging_client Sim.bob
                     (Some false) (Some false) Sim.state0 _ _ _ _) Ha Hn Hr)
    as (rows & _ & Hrows & Hrun).
  exists rows. split; [exact Hrows|]. by rewrite Hrun.
Defined.

(* ===================================================================== *)
(** * Further properties of the code *)
(* ===================================================================== *)

(** ** ReturnCodes: lookup by name *)

(** X1.  Attribute access on [ReturnCodes] finds a member exactly under its
    own name: [ReturnCodes.<n>] is the member [c] iff [c.name] is [n].  So
    every defined member is reachable and no two names reach the same
    member. *)
Theorem ReturnCodes_getattr_iff_name (attr : string) (c : ReturnCodes) :
  ReturnCodes_getattr attr = Some c <-> ReturnCodes_name c = attr.
Proof.
  split.
  - intros H. apply find_some in H as [_ H]. by apply String.eqb_eq in H.
  - intros <-. by destruct c.
Qed.

(** ** The text test behind [is_error] *)

Lemma prefix_iff (a b : string) :
  String.prefix a b = true <-> ∃ post, b = a +:+ post.
Proof.
  revert b. induction a as [|c a IH]; intros b.
  - destruct b; simpl; (split; [intros _; by eexists | done]).
  - destruct b as [|c' b]; simpl; [split; [done | by intros [? ?]]|].
    destruct (ascii_dec c c') as [->|Hne].
    + rewrite IH. split; intros [post H]; exists post.
      * simpl. by rewrite H.
      * simpl in H. by injection H.
    + split; [done|]. intros [post H]. simpl in H. injection H as ? _. done.
Qed.

Lemma contains_iff (needle hay : string) :
  PyStr.contains needle hay = true <-> ∃ pre post, hay = pre +:+ needle +:+ post.
Proof.
  induction hay as [|c hay IH]; cbn [PyStr.contains];
    rewrite orb_true_iff, prefix_iff.
  - split.
    + intros [[post H]|?]; [|done]. by exists EmptyString, post.
    + intros [[|? ?] [post H]]; [left; by exists post | discriminate H].
  - rewrite IH. split.
    + intros [[post H]|[pre [post H]]].
      * by exists EmptyString, post.
      * exists (String c pre), post. simpl. by rewrite H.
    + intros [[|c' pre] [post H]].
      * left. by exists post.
      * right. simpl in H. injection H as -> ->. eauto.
Qed.

Lemma lower_ascii_idemp c : PyStr.lower_ascii (PyStr.lower_ascii c) = PyStr.lower_ascii c.
Proof.
  destruct c as [[] [] [] [] [] [] [] []]; reflexivity.
Qed.

Lemma lower_idemp s : PyStr.lower (PyStr.lower s) = PyStr.lower s.
Proof.
  induction s as [|c s IH]; simpl; [done|]. by rewrite lower_ascii_idemp, IH.
Qed.

(** X2.  [is_error] holds for a name exactly when the name, lower-cased,
    has ["error"] somewhere inside it; the test does not see the case of the
    name: a name and its lower-casing are classified alike. *)
Theorem is_error_of_name_iff (name : string) :
  (is_error_of_name name = true <->
   ∃ pre post, PyStr.lower name = pre +:+ "error" +:+ post) ∧
  is_error_of_name (PyStr.lower name) = is_error_of_name name.
Proof.
  split; [apply contains_iff|].
  unfold is_error_of_name. by rewrite lower_idemp.
Qed.

(** ** [higher_permission] in closed form *)

(** X3.  [higher_permission] moves one step towards [OWNER] and stops
    there: the value of its result is [max(0, value - 1)].  In particular the
    result is never weaker than the level it starts from. *)
Theorem higher_permission_value (p : PermissionLevel) :
  PermissionLevel_value <$> higher_permission p
  = Some (Z.max 0 (PermissionLevel_value p - 1)) ∧
  (∀ q, higher_permission p = Some q <->
        PermissionLevel_value q = Z.max 0 (PermissionLevel_value p - 1)).
Proof.
  split; [by destruct p|].
  intros q. destruct p, q; simpl; split; (done || intros [=] || lia).
Qed.

(** ** What the permission check can answer *)

(** X4.  The permission check has three outcomes and no other.  It
    returns an envelope only for an unregistered caller checked at [USER],
    and that envelope is [NOT_REGISTERED_ERROR] with the admins hint.  It
    raises only for a caller it does not admit otherwise, and what it raises
    is the validation error of the refusal built without [data]: no
    [PERMISSION_ERROR] envelope ever comes out of it. *)
Theorem permission_check_outcomes {D} (ru : RequestUser)
    (required : PermissionLevel) (st : State D) :
  (∀ err, (Service.permission_check ru required st).1 = Ok (Some err) <->
          required = USER ∧ ¬ registered st (user_id ru) ∧
          err = {| code := NOT_REGISTERED_ERROR;
                   data := [("admins", VStr (admin_hint st))] |}) ∧
  (∀ e, (Service.permission_check ru required st).1 = Raise e <->
        e = ValidationError "data" ∧ ¬ admits st (user_id ru) required ∧
        (required = USER -> registered st (user_id ru))).
Proof.
  pose proof (permission_check_ok_iff ru required st) as Hok.
  rewrite permission_check_run in *. simpl in *.
  destruct (decide (required = USER)) as [->|Hne];
    [rewrite (bool_decide_eq_true_2 _ eq_refl) in *
    |rewrite (bool_decide_eq_false_2 _ Hne) in *]; simpl in *.
  - destruct (decide (registered st (user_id ru))) as [Hr|Hr];
      [rewrite (bool_decide_eq_true_2 _ Hr) in *
      |rewrite (bool_decide_eq_false_2 _ Hr) in *]; simpl in *.
    + pose proof (registered_admits_user _ _ Hr) as Ha.
      rewrite (proj2 Hok Ha). split.
      * intros err. split; [done | intros (_ & ? & _); done].
      * intros e. split; [done | intros (_ & ? & _); done].
    + rewrite (admin_hint_refreshed _ _ _ Hr). split.
      * intros err. split; [intros [= <-]; done | intros (_ & _ & ->); done].
      * intros e. split; [done | intros (_ & _ & H); by specialize (H eq_refl)].
  - split.
    + intros err. split; [|intros (? & _); done].
      destruct (stored_level _ _); [case_bool_decide|]; done.
    + intros e. destruct (stored_level st (user_id ru)) as [l|] eqn:Hl.
      * case_bool_decide as Hle.
        -- split; [done|]. intros (_ & Hn & _). exfalso. by apply Hn, Hok.
        -- split; [intros [= <-]|intros (-> & _); done].
           split; [done|]. split; [|done]. intros Ha. by apply Hok in Ha.
      * split; [intros [= <-]|intros (-> & _); done].
        split; [done|]. split; [|done]. intros Ha. by apply Hok in Ha.
Qed.

(** ** [/register_user] *)

Section RegisterUser.
Context {D : Type}.
Implicit Types (st : State D) (ru : RequestUser).

Lemma register_user_run ru uid st :
  admits st (user_id ru) ADMIN ->
  Service.register_user ru uid st
  = if bool_decide (registered st uid)
    then (Ok {| code := ALREADY_REGISTERED_ERROR; data := [("user_id", VStr uid)] |},
          refreshed ru ADMIN st)
    else match db_fault st with
         | None =>
             (Ok {| code := REGISTRATION_SUCCESSFUL;
                    data := [("user_id", VStr uid)] |},
              set_users (Registry.upsert_level uid USER)
                (log_call (CUserRegister uid USER) (refreshed ru ADMIN st)))
         | Some message =>
             (Ok {| code := DB_ERROR;
                    data := [("args", VList [VStr message])] |},
              log_call (CUserRegister uid USER) (refreshed ru ADMIN st))
         end.
Proof.
  intros Ha. unfold Service.register_user. unfold bind at 1.
  rewrite (permission_check_admitted _ _ _ Ha).
  unfold bind at 1. unfold Registry.User_is_registered at 1. unfold bind at 1.
  unfold get, ret.
  change (bool_decide (is_Some (users (refreshed ru ADMIN st) !! uid)))
    with (bool_decide (registered (refreshed ru ADMIN st) uid)).
  rewrite (bool_decide_ext _ _ (registered_refreshed ru ADMIN st uid)).
  case_bool_decide; [reflexivity|].
  unfold try_except, Registry.User_register, bind, modify, get.
  cbn [fst snd db_fault log_call refreshed set_users].
  by destruct (db_fault st).
Qed.

Lemma stored_level_registered st uid :
  registered st uid <-> is_Some (stored_level st uid).
Proof. unfold registered, stored_level. by rewrite fmap_is_Some. Qed.

Lemma stored_level_upsert uid level (s : State D) u :
  stored_level (set_users (Registry.upsert_level uid level) s) u
  = if decide (uid = u) then Some level else stored_level s u.
Proof.
  unfold stored_level, Registry.upsert_level. simpl.
  destruct (users s !! uid) eqn:Hu; case_decide as Heq; subst;
    rewrite ?lookup_insert_eq, ?lookup_insert_ne by done; done.
Qed.

End RegisterUser.

(** X5.  Registering twice.  A caller admitted at [ADMIN] registers an id
    that has no record.  While the store takes the write, the answer is
    [REGISTRATION_SUCCESSFUL] and the id is then stored with level [USER];
    the same call repeated answers [ALREADY_REGISTERED_ERROR] and changes no
    stored level.  When the store refuses the write with a message, the
    answer is [DB_ERROR] carrying the message as the exception's [args], and
    the id stays without a record. *)
Theorem register_user_twice {D} (ru : RequestUser) (uid : string) (st : State D) :
  admits st (user_id ru) ADMIN ->
  ¬ registered st uid ->
  match db_fault st with
  | None =>
      (Service.register_user ru uid st).1
      = Ok {| code := REGISTRATION_SUCCESSFUL; data := [("user_id", VStr uid)] |} ∧
      stored_level (Service.register_user ru uid st).2 uid = Some USER ∧
      (Service.register_user ru uid (Service.register_user ru uid st).2).1
      = Ok {| code := ALREADY_REGISTERED_ERROR; data := [("user_id", VStr uid)] |} ∧
      (∀ u, stored_level
              (Service.register_user ru uid (Service.register_user ru uid st).2).2 u
            = stored_level (Service.register_user ru uid st).2 u)
  | Some message =>
      (Service.register_user ru uid st).1
      = Ok {| code := DB_ERROR; data := [("args", VList [VStr message])] |} ∧
      stored_level (Service.register_user ru uid st).2 uid = None ∧
      ¬ registered (Service.register_user ru uid st).2 uid
  end.
Proof.
  intros Ha Hn.
  rewrite (register_user_run ru uid st Ha), (bool_decide_eq_false_2 _ Hn).
  destruct (db_fault st) as [message|] eqn:Hf; cbn [fst snd].
  { assert (Hnr : ¬ registered (log_call (CUserRegister uid USER)
                                  (refreshed ru ADMIN st)) uid).
    { intros Hr. apply Hn. by apply (registered_refreshed ru ADMIN st uid). }
    split; [reflexivity|]. split; [|exact Hnr].
    destruct (stored_level _ uid) eqn:Hl; [|done].
    exfalso. apply Hnr, stored_level_registered. rewrite Hl. eauto. }
  set (s1 := set_users (Registry.upsert_level uid USER)
               (log_call (CUserRegister uid USER) (refreshed ru ADMIN st))).
  assert (Hl : ∀ u, stored_level s1 u
                    = if decide (uid = u) then Some USER else stored_level st u).
  { intros u. unfold s1. rewrite stored_level_upsert.
    case_decide; [done|]. exact (stored_level_refreshed ru ADMIN st u). }
  assert (Hne : uid ≠ user_id ru).
  { intros ->. apply Hn, stored_level_registered.
    apply admits_iff in Ha as (l & -> & _). eauto. }
  assert (Ha1 : admits s1 (user_id ru) ADMIN).
  { apply admits_iff. rewrite Hl. rewrite decide_False by done.
    exact (proj1 (admits_iff _ _ _) Ha). }
  assert (Hr1 : registered s1 uid).
  { apply stored_level_registered. rewrite Hl, decide_True by done. eauto. }
  split; [reflexivity|]. split; [by rewrite Hl, decide_True|].
  rewrite (register_user_run ru uid s1 Ha1), (bool_decide_eq_true_2 _ Hr1).
  split; [reflexivity|]. intros u. apply stored_level_refreshed.
Qed.

Lemma register_user_twice_witness :
  (admits Sim.state0 (user_id Sim.boss) ADMIN ∧ ¬ registered Sim.state0 "100") ∧
  (Service.register_user Sim.boss "100" Sim.state0).1
  = Ok {| code := REGISTRATION_SUCCESSFUL; data := [("user_id", VStr "100")] |} ∧
  (Service.register_user Sim.boss "100"
     (Service.register_user Sim.boss "100" Sim.state0).2).1
  = Ok {| code := ALREADY_REGISTERED_ERROR; data := [("user_id", VStr "100")] |}.
Proof.
  assert (Ha : admits Sim.state0 (user_id Sim.boss) ADMIN).
  { apply admits_iff. exists OWNER. split; [reflexivity | simpl; lia]. }
  assert (Hn : ¬ registered Sim.state0 "100").
  { intros [x Hx]. vm_compute in Hx. discriminate Hx. }
  split; [split; [exact Ha | exact Hn]|].
  destruct (register_user_twice Sim.boss "100" Sim.state0 Ha Hn) as (H1 & _ & H3 & _).
  split; [exact H1 | exact H3].
Defined.

(** The same registration against a store that refuses the write. *)
Example register_user_store_down :
  (Service.register_user Sim.boss "100" Sim.broken_state).1
  = Ok {| code := DB_ERROR; data := [("args", VList [VStr "database is locked"])] |} ∧
  stored_level (Service.register_user Sim.boss "100" Sim.broken_state).2 "100" = None.
Proof. split; vm_compute; reflexivity. Qed.

(** X6.  [/register_user] never changes a level that is already stored:
    whoever calls it, for whatever id, every user registered before the call
    has the same level after it. *)
Theorem register_user_keeps_levels {D} (ru : RequestUser) (uid : string)
    (st : State D) (u : string) :
  registered st u ->
  stored_level (Service.register_user ru uid st).2 u = stored_level st u.
Proof.
  intros Hu.
  pose proof (stored_level_refreshed ru ADMIN st u) as Hl.
  pose proof (proj2 (registered_refreshed ru ADMIN st u) Hu) as Hreg.
  enough (sat (Service.register_user ru uid) st
            (fun _ s' => stored_level s' u = stored_level st u)) as H by exact H.
  unfold Service.register_user. sat_run; eval_attrs; try exact Hl.
  all: (etransitivity;
        [exact (stored_level_upsert uid USER
                  (log_call (CUserRegister uid USER) (refreshed ru ADMIN st)) u)|]);
    (rewrite decide_False;
     [exact Hl | intros ->; by apply bool_decide_eq_false_1 in Heqb]).
Qed.

Lemma register_user_keeps_levels_witness :
  registered Sim.state0 "7" ∧
  stored_level (Service.register_user Sim.boss "7" Sim.state0).2 "7"
  = stored_level Sim.state0 "7".
Proof.
  assert (H : registered Sim.state0 "7") by (eexists; reflexivity).
  split; [exact H|].
  exact (register_user_keeps_levels Sim.boss "7" Sim.state0 "7" H).
Defined.

(** ** [/join] *)

(** X7.  The address recorded for a joining worker is the one the request
    came from: whatever [external_ip] the request body carries, the handler
    behaves the same.  While the store takes the write, the envelope is
    [WORKER_INFO] with the request's host as [external_ip] and the worker's
    record holds that host; when the store refuses the write with a message,
    the envelope is [DB_ERROR] carrying that message and the worker table is
    as it was. *)
Theorem add_worker_uses_request_host {D} (wm : WorkerModel) (claimed host : string)
    (st : State D) :
  Service.add_worker wm host st
  = Service.add_worker {| wm_hostname := wm_hostname wm; wm_external_ip := claimed;
                          wm_volumes_root := wm_volumes_root wm |} host st ∧
  match db_fault st with
  | None =>
      (Service.add_worker wm host st).1
      = Ok {| code := WORKER_INFO;
              data := [("info", VDict [("hostname", VStr (wm_hostname wm));
                                       ("external_ip", VStr host);
                                       ("volumes_root", VStr (wm_volumes_root wm))])] |} ∧
      workers (Service.add_worker wm host st).2 !! wm_hostname wm
      = Some {| w_external_ip := host; w_volumes_root := wm_volumes_root wm |}
  | Some message =>
      (Service.add_worker wm host st).1
      = Ok {| code := DB_ERROR; data := [("message", VStr message)] |} ∧
      workers (Service.add_worker wm host st).2 = workers st
  end.
Proof.
  split; [reflexivity|]. rewrite add_worker_run.
  destruct (db_fault st) as [message|]; cbn [fst snd].
  - split; reflexivity.
  - split; [reflexivity|]. simpl. apply lookup_insert_eq.
Qed.

(** ** [/set_ssh_key]: order of the calls *)

(** Closes a leaf of the run once told whether the config was created and
    the key saved; the removal is read off the log. *)
Ltac key_shape_rest :=
  split;
  [ unfold key_calls; cbn [app from_option]; reflexivity
  | split;
    [ intros Hs; first [discriminate Hs | split; reflexivity]
    | repeat split; reflexivity ] ].

Ltac key_shape created saved :=
  first [ solve [exists None, created, saved; key_shape_rest]
        | solve [eexists (Some _), created, saved; key_shape_rest] ].

Section KeyCalls.
Context {D : Type} (client : DockerClient D).
Implicit Types (st : State D) (ru : RequestUser).

Lemma set_ssh_key_trace ru key st :
  sat (Service.set_ssh_key client ru key) st (fun r s' =>
    ∃ removed created saved,
      calls s' = calls st ++
        [CPermissionCheck (user_id ru) USER; CUserUpdateDetails (user_id ru)] ++
        key_calls (user_id ru) key removed created saved ∧
      (saved = true -> created = true ∧ r = Raise (AttributeError "SET_KEY_SUCCESSFUL")) ∧
      users s' = (if saved
                  then alter (with_key key) (user_id ru) (users (refreshed ru USER st))
                  else users (refreshed ru USER st)) ∧
      workers s' = workers st ∧ gpus s' = gpus st).
Proof.
  pose proof (calls_refreshed ru USER st) as Hcalls.
  unfold Service.set_ssh_key. sat_run; eval_attrs;
    cbn [calls users workers gpus set_docker log_call set_users fst snd];
    rewrite Hcalls, <- ?app_assoc; cbn [app];
    first [ key_shape false false | key_shape true false | key_shape true true ].
Qed.

End KeyCalls.

(** X8.  The calls of [set_ssh_key] come in one order.  After the
    permission check there is at most one removal of an old config, then at
    most one creation, always of the config named [beer_ssh-key_<caller id>]
    with the key given, then at most one write of the key to the caller's
    row; the key is written only when the creation was issued before it. *)
Theorem set_ssh_key_call_order {D} (client : DockerClient D) (ru : RequestUser)
    (key : string) (st : State D) :
  ∃ (removed : option string) (created saved : bool),
    calls (Service.set_ssh_key client ru key st).2
    = calls st ++
      [CPermissionCheck (user_id ru) USER; CUserUpdateDetails (user_id ru)] ++
      from_option (fun n => [CConfigRemove n]) [] removed ++
      (if created then [CConfigCreate ("beer_ssh-key_" +:+ user_id ru) key] else []) ++
      (if saved then [CUserSave (user_id ru)] else []) ∧
    (saved = false ∨ created = true).
Proof.
  pose proof (set_ssh_key_trace client ru key st) as H. unfold sat in H.
  destruct H as (removed & created & saved & Hc & Hs & _).
  exists removed, created, saved. split; [exact Hc|].
  destruct saved; [right; by apply Hs | by left].
Qed.

(** X9.  [set_ssh_key] writes to no row but the caller's and to no level:
    whatever the Docker daemon answers, every other user's row, every stored
    level, and the worker and GPU tables are after the call what they were
    before it. *)
Theorem set_ssh_key_touches_own_row_only {D} (client : DockerClient D)
    (ru : RequestUser) (key : string) (st : State D) :
  delete (user_id ru) (users (Service.set_ssh_key client ru key st).2)
  = delete (user_id ru) (users st) ∧
  (∀ u, stored_level (Service.set_ssh_key client ru key st).2 u = stored_level st u) ∧
  workers (Service.set_ssh_key client ru key st).2 = workers st ∧
  gpus (Service.set_ssh_key client ru key st).2 = gpus st.
Proof.
  pose proof (set_ssh_key_trace client ru key st) as H. unfold sat in H.
  destruct H as (removed & created & saved & _ & _ & Hu & Hw & Hg).
  split; [|split; [|by split]].
  - rewrite Hu. destruct saved; rewrite ?delete_alter_eq;
      unfold refreshed; simpl; by rewrite delete_alter_eq.
  - intros u. unfold stored_level at 1. rewrite Hu.
    destruct saved; [|apply stored_level_refreshed].
    rewrite <- (stored_level_refreshed ru USER st u). unfold stored_level.
    destruct (decide (user_id ru = u)) as [->|Hne].
    + rewrite lookup_alter_eq. by destruct (users _ !! u).
    + by rewrite lookup_alter_ne.
Qed.

(** ** [/set_ssh_key]: the old config *)

(** In a leaf of a run, brings the recorded Docker answers and registry
    lookups to the state they were made in and closes the leaf when they
    contradict what is known. *)
Ltac leaf_facts ru required st :=
  unfold _CONFIG_PREFIX in *;
  cbn [docker users workers gpus clock set_docker log_call set_users fst snd] in *;
  change (docker (refreshed ru required st)) with (docker st) in *;
  change (workers (refreshed ru required st)) with (workers st) in *;
  change (clock (refreshed ru required st)) with (clock st) in *;
  repeat first
    [ match goal with
      | H1 : ?f = (_, _), H2 : ?f = (_, _) |- _ =>
          rewrite H1 in H2; injection H2 as ? ?
      | H1 : ?f = Ok _, H2 : ?f = _ |- _ => rewrite H1 in H2
      | H1 : ?f = Raise _, H2 : ?f = _ |- _ => rewrite H1 in H2
      | H1 : ?f = Some _, H2 : ?f = _ |- _ => rewrite H1 in H2
      | H1 : ?f = true, H2 : ?f = _ |- _ => rewrite H1 in H2
      | H1 : ?f = false, H2 : ?f = _ |- _ => rewrite H1 in H2
      end
    | progress simplify_eq ].

(** A run with every answer built on the way: attribute lookups resolved
    and the envelope constructor evaluated at each step. *)
Ltac sat_go :=
  repeat (sat_step; eval_attrs; cbn [ManagerAnswer_init]; cbv beta iota).

Section OldConfig.
Context {D : Type} (client : DockerClient D).
Implicit Types (st : State D) (ru : RequestUser).

Lemma registered_row_refreshed ru required st :
  registered st (user_id ru) ->
  ∃ row, users (refreshed ru required st) !! user_id ru = Some row.
Proof. intros H. by apply (registered_refreshed ru required st) in H. Qed.

Lemma set_ssh_key_in_use_run ru key st cfg d1 expl d2 :
  registered st (user_id ru) ->
  configs_get client ("beer_ssh-key_" +:+ user_id ru) (docker st) = (Ok cfg, d1) ->
  config_remove client cfg d1 = (Raise (APIError expl), d2) ->
  PyStr.contains "in use by the following service" expl = true ->
  sat (Service.set_ssh_key client ru key) st (fun r s' =>
    r = Raise (AttributeError "KEY_IN_USE_ERROR") ∧
    calls s' = calls st ++
      [CPermissionCheck (user_id ru) USER; CUserUpdateDetails (user_id ru);
       CConfigRemove (config_name cfg)] ∧
    docker s' = d2).
Proof.
  intros Hreg Hget Hrm Hin.
  pose proof (calls_refreshed ru USER st) as Hcalls.
  pose proof (proj2 (permission_check_ok_iff ru USER st)
                (registered_admits_user _ _ Hreg)) as Hadm.
  destruct (registered_row_refreshed ru USER st Hreg) as [row Hrow].
  unfold Service.set_ssh_key. sat_go.
  all: leaf_facts ru USER st.
  split; [reflexivity|]. split; [|reflexivity].
  cbn [calls set_docker log_call]. by rewrite Hcalls, <- app_assoc.
Qed.

End OldConfig.

(** X10.  A key still in use.  When the caller is registered, the old
    config [beer_ssh-key_<caller id>] exists and its removal fails with an
    [APIError] whose explanation says it is in use by a service, the handler
    stops there: it raises [AttributeError] on [ReturnCodes.KEY_IN_USE_ERROR],
    has issued the removal and nothing after it (no config is created), and
    leaves every user's key as it was. *)
Theorem set_ssh_key_in_use {D} (client : DockerClient D) (ru : RequestUser)
    (key : string) (st : State D) (cfg : Config) (d1 d2 : D) (expl : string) :
  registered st (user_id ru) ->
  configs_get client ("beer_ssh-key_" +:+ user_id ru) (docker st) = (Ok cfg, d1) ->
  config_remove client cfg d1 = (Raise (APIError expl), d2) ->
  PyStr.contains "in use by the following service" expl = true ->
  (Service.set_ssh_key client ru key st).1 = Raise (AttributeError "KEY_IN_USE_ERROR") ∧
  calls (Service.set_ssh_key client ru key st).2
  = calls st ++ [CPermissionCheck (user_id ru) USER; CUserUpdateDetails (user_id ru);
                 CConfigRemove (config_name cfg)] ∧
  docker (Service.set_ssh_key client ru key st).2 = d2 ∧
  (∀ u, has_key (Service.set_ssh_key client ru key st).2 u = has_key st u).
Proof.
  intros Hreg Hget Hrm Hin.
  pose proof (set_ssh_key_in_use_run client ru key st cfg d1 expl d2 Hreg Hget Hrm Hin)
    as (Hr & Hc & Hd).
  pose proof (set_ssh_key_outcome client ru key st) as [_ Hk].
  split; [exact Hr|]. split; [exact Hc|]. split; [exact Hd|].
  apply Hk. rewrite Hr. discriminate.
Qed.

Lemma set_ssh_key_in_use_witness :
  (Service.set_ssh_key Sim.client Sim.bob "ssh-ed25519 NEW" Sim.busy_state).1
  = Raise (AttributeError "KEY_IN_USE_ERROR") ∧
  calls (Service.set_ssh_key Sim.client Sim.bob "ssh-ed25519 NEW" Sim.busy_state).2
  = calls Sim.busy_state ++
    [CPermissionCheck "7" USER; CUserUpdateDetails "7"; CConfigRemove "beer_ssh-key_7"] ∧
  docker (Service.set_ssh_key Sim.client Sim.bob "ssh-ed25519 NEW" Sim.busy_state).2
  = Sim.busy_daemon.
Proof.
  assert (Hreg : registered Sim.busy_state (user_id Sim.bob)) by (eexists; reflexivity).
  destruct (set_ssh_key_in_use Sim.client Sim.bob "ssh-ed25519 NEW" Sim.busy_state
              {| config_id := "id-beer_ssh-key_7"; config_name := "beer_ssh-key_7" |}
              Sim.busy_daemon Sim.busy_daemon
              "config 'beer_ssh-key_7' is in use by the following service: job"
              Hreg eq_refl eq_refl eq_refl) as (H1 & H2 & H3 & _).
  split; [exact H1|]. split; [exact H2 | exact H3].
Defined.

Section OtherApiErrors.
Context {D : Type} (client : DockerClient D).
Implicit Types (st : State D) (ru : RequestUser).

(** Closes a leaf by naming the removal and whether the key was saved. *)
Ltac created_shape ru key :=
  unfold key_calls; cbn [calls set_docker log_call set_users];
  first
    [ solve [exists None, false; cbn [app from_option]; reflexivity]
    | solve [exists None, true; cbn [app from_option]; reflexivity]
    | solve [eexists (Some _), false; cbn [app from_option]; reflexivity]
    | solve [eexists (Some _), true; cbn [app from_option]; reflexivity] ].

Lemma set_ssh_key_get_fails ru key st expl d1 :
  registered st (user_id ru) ->
  configs_get client ("beer_ssh-key_" +:+ user_id ru) (docker st)
  = (Raise (APIError expl), d1) ->
  PyStr.contains "in use by the following service" expl = false ->
  sat (Service.set_ssh_key client ru key) st (fun r s' =>
    ∃ removed saved,
      calls s' = calls st ++
        [CPermissionCheck (user_id ru) USER; CUserUpdateDetails (user_id ru)] ++
        key_calls (user_id ru) key removed true saved).
Proof.
  intros Hreg Hget Hin.
  pose proof (calls_refreshed ru USER st) as Hcalls.
  pose proof (proj2 (permission_check_ok_iff ru USER st)
                (registered_admits_user _ _ Hreg)) as Hadm.
  destruct (registered_row_refreshed ru USER st Hreg) as [row Hrow].
  unfold Service.set_ssh_key. sat_go.
  all: leaf_facts ru USER st.
  all: cbn [calls set_docker log_call set_users]; rewrite Hcalls, <- ?app_assoc;
    cbn [app]; created_shape ru key.
Qed.

Lemma set_ssh_key_remove_fails ru key st cfg d0 expl d1 :
  registered st (user_id ru) ->
  configs_get client ("beer_ssh-key_" +:+ user_id ru) (docker st) = (Ok cfg, d0) ->
  config_remove client cfg d0 = (Raise (APIError expl), d1) ->
  PyStr.contains "in use by the following service" expl = false ->
  sat (Service.set_ssh_key client ru key) st (fun r s' =>
    ∃ removed saved,
      calls s' = calls st ++
        [CPermissionCheck (user_id ru) USER; CUserUpdateDetails (user_id ru)] ++
        key_calls (user_id ru) key removed true saved).
Proof.
  intros Hreg Hget Hrm Hin.
  pose proof (calls_refreshed ru USER st) as Hcalls.
  pose proof (proj2 (permission_check_ok_iff ru USER st)
                (registered_admits_user _ _ Hreg)) as Hadm.
  destruct (registered_row_refreshed ru USER st Hreg) as [row Hrow].
  unfold Service.set_ssh_key. sat_go.
  all: leaf_facts ru USER st.
  all: cbn [calls set_docker log_call set_users]; rewrite Hcalls, <- ?app_assoc;
    cbn [app]; created_shape ru key.
Qed.

End OtherApiErrors.

(** X11.  Other errors of the daemon are dropped.  When the caller is
    registered and looking up or removing the old config fails with an
    [APIError] whose explanation does not say the config is in use, the
    handler goes on as if nothing had failed: it issues the creation of
    [beer_ssh-key_<caller id>] with the key given. *)
Theorem set_ssh_key_drops_other_api_errors {D} (client : DockerClient D)
    (ru : RequestUser) (key : string) (st : State D) (expl : string) (d1 : D) :
  registered st (user_id ru) ->
  (configs_get client ("beer_ssh-key_" +:+ user_id ru) (docker st)
   = (Raise (APIError expl), d1) ∨
   ∃ cfg d0,
     configs_get client ("beer_ssh-key_" +:+ user_id ru) (docker st) = (Ok cfg, d0) ∧
     config_remove client cfg d0 = (Raise (APIError expl), d1)) ->
  PyStr.contains "in use by the following service" expl = false ->
  ∃ (removed : option string) (saved : bool),
    calls (Service.set_ssh_key client ru key st).2
    = calls st ++
      [CPermissionCheck (user_id ru) USER; CUserUpdateDetails (user_id ru)] ++
      from_option (fun n => [CConfigRemove n]) [] removed ++
      [CConfigCreate ("beer_ssh-key_" +:+ user_id ru) key] ++
      (if saved then [CUserSave (user_id ru)] else []).
Proof.
  intros Hreg [Hget|(cfg & d0 & Hget & Hrm)] Hin.
  - exact (set_ssh_key_get_fails client ru key st expl d1 Hreg Hget Hin).
  - exact (set_ssh_key_remove_fails client ru key st cfg d0 expl d1 Hreg Hget Hrm Hin).
Qed.

Lemma set_ssh_key_drops_other_api_errors_witness :
  registered Sim.state0 (user_id Sim.alice) ∧
  ∃ (removed : option string) (saved : bool),
    calls (Service.set_ssh_key Sim.flaky_client Sim.alice "ssh-ed25519 ALICE"
             Sim.state0).2
    = calls Sim.state0 ++
      [CPermissionCheck "42" USER; CUserUpdateDetails "42"] ++
      from_option (fun n => [CConfigRemove n]) [] removed ++
      [CConfigCreate "beer_ssh-key_42" "ssh-ed25519 ALICE"] ++
      (if saved then [CUserSave "42"] else []).
Proof.
  assert (Hreg : registered Sim.state0 (user_id Sim.alice)) by (eexists; reflexivity).
  split; [exact Hreg|].
  exact (set_ssh_key_drops_other_api_errors Sim.flaky_client Sim.alice
           "ssh-ed25519 ALICE" Sim.state0 "connection reset by peer" Sim.daemon0
           Hreg (or_introl eq_refl) eq_refl).
Defined.

(** ** [/job]: when the orchestrator is called *)

Section DispatchCalls.
Context {D : Type} (client : DockerClient D).
Implicit Types (st : State D) (ru : RequestUser).

Lemma has_key_of_row st uid row keymat :
  users st !! uid = Some row -> u_public_ssh_key row = Some keymat ->
  has_key st uid = true.
Proof. intros Hu Hk. unfold has_key. rewrite Hu, Hk. by apply bool_decide_eq_true_2. Qed.

Lemma dispatch_trace ru job st :
  sat (Service.dispatch client ru job) st (fun r s' =>
    (calls s' = calls st ++
       [CPermissionCheck (user_id ru) USER; CUserUpdateDetails (user_id ru)] ∧
     ∀ ans, r = Ok ans -> code ans = NOT_REGISTERED_ERROR) ∨
    ∃ row cfg d delta expire,
      (Service.permission_check ru USER st).1 = Ok None ∧
      workers st !! worker_hostname job = Some row ∧
      has_key (refreshed ru USER st) (job_user_id job) = true ∧
      configs_get client ("beer_ssh-key_" +:+ job_user_id job) (docker st) = (Ok cfg, d) ∧
      PyDatetime.timedelta_hours (expected_duration job) = Ok delta ∧
      PyDatetime.add (clock st) delta = Ok expire ∧
      calls s' = calls st ++
        [CPermissionCheck (user_id ru) USER; CUserUpdateDetails (user_id ru);
         CServiceCreate
           (Service.dispatch_kwargs job
              {| hostname := worker_hostname job; worker_row := row |}
              (job_user_id job) (clock st) expire cfg)] ∧
      r = Raise (TypeError "create() got an unexpected keyword argument 'mount'") ∧
      docker s' = d).
Proof.
  pose proof (calls_refreshed ru USER st) as Hcalls.
  pose proof (permission_check_answer ru USER st) as Hans.
  unfold Service.dispatch. sat_go.
  all: try (left; split; [exact Hcalls|]; intros ans Hr;
            first [discriminate Hr | injection Hr as <-; by apply Hans]).
  all: right; leaf_facts ru USER st;
    eexists _, _, _, _, _; split; [reflexivity|]; split; [eassumption|];
    (split; [eapply has_key_of_row; eassumption|]);
    split; [eassumption|]; split; [reflexivity|]; split; [eassumption|];
    (split; [cbn [calls set_docker log_call]; by rewrite Hcalls, <- app_assoc|]);
    split; reflexivity.
Qed.

Lemma dispatch_overflow_run ru job st row e :
  registered st (user_id ru) ->
  workers st !! worker_hostname job = Some row ->
  has_key st (job_user_id job) = true ->
  match PyDatetime.timedelta_hours (expected_duration job) with
  | Ok delta => PyDatetime.add (clock st) delta
  | Raise e' => Raise e'
  end = Raise e ->
  sat (Service.dispatch client ru job) st (fun r s' =>
    r = Raise e ∧
    calls s' = calls st ++
      [CPermissionCheck (user_id ru) USER; CUserUpdateDetails (user_id ru)] ∧
    docker s' = docker st).
Proof.
  intros Hreg Hw Hk He.
  pose proof (calls_refreshed ru USER st) as Hcalls.
  pose proof (proj2 (permission_check_ok_iff ru USER st)
                (registered_admits_user _ _ Hreg)) as Hadm.
  rewrite <- (has_key_refreshed ru USER st) in Hk. unfold has_key in Hk.
  unfold Service.dispatch. sat_go.
  all: leaf_facts ru USER st.
  all: try (apply bool_decide_eq_true_1 in Hk; destruct Hk as [? Hk]; congruence).
  all: by repeat split.
Qed.


End DispatchCalls.



(** X12.  [dispatch] reaches the orchestrator at most once, and only with
    everything in place.  Either the run adds nothing to the log but the
    permission check and can return no envelope but the not-registered
    refusal, or it adds exactly one [services.create]; in that case the
    caller was admitted, the target worker has a record, the target user's
    row holds a key, the Docker config [beer_ssh-key_<target id>] was found
    and the expiry could be computed. *)
Theorem dispatch_calls_orchestrator_once {D} (client : DockerClient D)
    (ru : RequestUser) (job : JobRequestModel) (st : State D) :
  (calls (Service.dispatch client ru job st).2
   = calls st ++ [CPermissionCheck (user_id ru) USER; CUserUpdateDetails (user_id ru)] ∧
   ∀ ans, (Service.dispatch client ru job st).1 = Ok ans ->
          code ans = NOT_REGISTERED_ERROR) ∨
  ∃ kw cfg d delta expire,
    calls (Service.dispatch client ru job st).2
    = calls st ++ [CPermissionCheck (user_id ru) USER; CUserUpdateDetails (user_id ru);
                   CServiceCreate kw] ∧
    admits st (user_id ru) USER ∧
    is_Some (workers st !! worker_hostname job) ∧
    has_key st (job_user_id job) = true ∧
    configs_get client ("beer_ssh-key_" +:+ job_user_id job) (docker st) = (Ok cfg, d) ∧
    PyDatetime.timedelta_hours (expected_duration job) = Ok delta ∧
    PyDatetime.add (clock st) delta = Ok expire.
Proof.
  pose proof (dispatch_trace client ru job st) as H. unfold sat in H.
  destruct H as [H|(row & cfg & d & delta & expire & Ha & Hw & Hk & Hg & Hd & He & Hc & _)];
    [by left|right].
  eexists _, cfg, d, delta, expire. split; [exact Hc|].
  split; [by apply permission_check_ok_iff|]. split; [by rewrite Hw|].
  split; [by rewrite <- (has_key_refreshed ru USER st)|]. done.
Qed.

(** X13.  The workload is asked for in the name of the job's user, not of
    the caller.  Whenever a run of [dispatch] issues its
    [client.services.create] call, the keyword arguments of that call name
    the service [<job.user_id>_<now as %m%d%Y%H%M%S>], label it
    [beer.user_id] with [job.user_id], reference as
    [/root/.ssh/authorized_keys] the config found under
    [beer_ssh-key_<job.user_id>], ask for a tty and for port 22 published in
    host mode, and carry under the keyword [mount] the one string
    [<worker volumes root>/<job.user_id>:<requested path>:rw]. *)
Theorem dispatch_descriptor_owner {D} (client : DockerClient D) (ru : RequestUser)
    (job : JobRequestModel) (st : State D) (kw : ServiceKwargs) :
  calls (Service.dispatch client ru job st).2
  = calls st ++ [CPermissionCheck (user_id ru) USER; CUserUpdateDetails (user_id ru);
                 CServiceCreate kw] ->
  ∃ row cfg d,
    workers st !! worker_hostname job = Some row ∧
    configs_get client ("beer_ssh-key_" +:+ job_user_id job) (docker st) = (Ok cfg, d) ∧
    sk_image kw = image job ∧
    sk_name kw = job_user_id job +:+ "_" +:+ PyDatetime.strftime_mdYHMS (clock st) ∧
    dict_get "beer.user_id" (sk_labels kw) = Some (job_user_id job) ∧
    sk_configs kw = [{| ref_config_id := config_id cfg;
                        ref_config_name := config_name cfg;
                        ref_filename := "/root/.ssh/authorized_keys" |}] ∧
    sk_mount kw = [w_volumes_root row +:+ "/" +:+ job_user_id job +:+ ":"
                     +:+ volume_mount job +:+ ":rw"] ∧
    sk_tty kw = true ∧
    sk_endpoint_ports kw = [(None, (22%Z, None, "host"))].
Proof.
  intros Hlog.
  pose proof (dispatch_trace client ru job st) as H. unfold sat in H.
  destruct H as [[Hc _]|(row & cfg & d & delta & expire & _ & Hw & _ & Hg & _ & _ & Hc & _)];
    rewrite Hc in Hlog; apply app_inv_head in Hlog.
  - discriminate Hlog.
  - injection Hlog as <-. exists row, cfg, d. by repeat split.
Qed.

Lemma dispatch_descriptor_owner_witness :
  ∃ kw,
    calls (Service.dispatch Sim.client Sim.boss Sim.job0 Sim.state0).2
    = calls Sim.state0 ++
      [CPermissionCheck "1" USER; CUserUpdateDetails "1"; CServiceCreate kw] ∧
    sk_name kw = "7_12312023221509" ∧
    dict_get "beer.user_id" (sk_labels kw) = Some "7" ∧
    sk_configs kw = [{| ref_config_id := "id-beer_ssh-key_7";
                        ref_config_name := "beer_ssh-key_7";
                        ref_filename := "/root/.ssh/authorized_keys" |}] ∧
    sk_mount kw = ["/data/volumes/7:/workspace:rw"].
Proof.
  exists (Service.dispatch_kwargs Sim.job0
            {| hostname := "gpu-box-1"; worker_row := Sim.box "10.0.0.1" |}
            "7" (clock Sim.state0)
            (PyDatetime.Build_datetime 2024 1 1 3 15 9 123456)
            {| config_id := "id-beer_ssh-key_7"; config_name := "beer_ssh-key_7" |}).
  assert (Hlog : calls (Service.dispatch Sim.client Sim.boss Sim.job0 Sim.state0).2
    = calls Sim.state0 ++
      [CPermissionCheck "1" USER; CUserUpdateDetails "1";
       CServiceCreate
         (Service.dispatch_kwargs Sim.job0
            {| hostname := "gpu-box-1"; worker_row := Sim.box "10.0.0.1" |}
            "7" (clock Sim.state0)
            (PyDatetime.Build_datetime 2024 1 1 3 15 9 123456)
            {| config_id := "id-beer_ssh-key_7"; config_name := "beer_ssh-key_7" |})])
    by (vm_compute; reflexivity).
  split; [exact Hlog|].
  destruct (dispatch_descriptor_owner Sim.client Sim.boss Sim.job0 Sim.state0 _ Hlog)
    as (row & cfg & d & Hw & Hg & _ & Hn & Hl & Hcf & Hm & _).
  injection Hw as <-. injection Hg as <- _.
  split; [exact Hn|]. split; [exact Hl|]. split; [exact Hcf | exact Hm].
Defined.

(** X14.  An expiry that does not fit.  When the caller is registered, the
    worker has a record and the target user has a key, but
    [timedelta(hours=expected_duration)] or [now + timedelta] raises (the
    result would fall outside the years a datetime can hold), [dispatch]
    raises that same exception, having called neither the secret store nor
    the orchestrator. *)
Theorem dispatch_expiry_out_of_range {D} (client : DockerClient D)
    (ru : RequestUser) (job : JobRequestModel) (st : State D) (e : exn) :
  registered st (user_id ru) ->
  is_Some (workers st !! worker_hostname job) ->
  has_key st (job_user_id job) = true ->
  match PyDatetime.timedelta_hours (expected_duration job) with
  | Ok delta => PyDatetime.add (clock st) delta
  | Raise e' => Raise e'
  end = Raise e ->
  (Service.dispatch client ru job st).1 = Raise e ∧
  calls (Service.dispatch client ru job st).2
  = calls st ++ [CPermissionCheck (user_id ru) USER; CUserUpdateDetails (user_id ru)] ∧
  docker (Service.dispatch client ru job st).2 = docker st.
Proof.
  intros Hreg [row Hw] Hk He.
  exact (dispatch_overflow_run client ru job st row e Hreg Hw Hk He).
Qed.

Lemma dispatch_expiry_out_of_range_witness :
  (registered Sim.state0 (user_id Sim.bob) ∧
   is_Some (workers Sim.state0 !! worker_hostname Sim.endless_job) ∧
   has_key Sim.state0 (job_user_id Sim.endless_job) = true) ∧
  (Service.dispatch Sim.client Sim.bob Sim.endless_job Sim.state0).1
  = Raise OverflowError.
Proof.
  assert (Hreg : registered Sim.state0 (user_id Sim.bob)) by (eexists; reflexivity).
  assert (Hw : is_Some (workers Sim.state0 !! worker_hostname Sim.endless_job))
    by (eexists; reflexivity).
  assert (Hk : has_key Sim.state0 (job_user_id Sim.endless_job) = true) by reflexivity.
  split; [split; [exact Hreg | split; [exact Hw | exact Hk]]|].
  refine (proj1 (dispatch_expiry_out_of_range Sim.client Sim.bob Sim.endless_job
                   Sim.state0 OverflowError Hreg Hw Hk _)).
  vm_compute. reflexivity.
Defined.

(** ** [/job_list]: the services kept *)

(** X15.  The comprehension of [job_list] keeps, in order, exactly the
    listed services whose [beer.user_id] label equals the user's id; if any
    listed service has no such label, indexing it raises [KeyError] and
    nothing is kept. *)
Theorem services_of_filter (uid : string) (listed : list Service) :
  Service.services_of uid listed
  = if forallb (fun sv => bool_decide
                  (is_Some (dict_get "beer.user_id" (service_labels sv)))) listed
    then Ok (List.filter
               (fun sv => bool_decide
                  (dict_get "beer.user_id" (service_labels sv) = Some uid)) listed)
    else Raise (KeyError "beer.user_id").
Proof.
  induction listed as [|sv listed IH]; [reflexivity|].
  cbn [Service.services_of forallb List.filter].
  change _LABEL_USER_ID with "beer.user_id".
  destruct (dict_get "beer.user_id" (service_labels sv)) as [owner|] eqn:Ho.
  - rewrite (bool_decide_eq_true_2 (is_Some (Some owner))) by eauto. cbn [andb].
    rewrite IH. destruct (forallb _ listed); [|reflexivity].
    destruct (String.eqb_spec owner uid) as [->|Hne].
    + by rewrite bool_decide_eq_true_2.
    + rewrite bool_decide_eq_false_2; [done|]. by intros [= ->].
  - rewrite (bool_decide_eq_false_2 (is_Some None)); [done|]. by intros [? ?].
Qed.

(** ** Handlers that only read *)

Create HintDb keepdb discriminated.

Section ReadOnly.
Context {D : Type} (client : DockerClient D).
Implicit Types (st s : State D) (ru : RequestUser).

Lemma keep_ret {A} (a : A) : keeps_store (D:=D) (ret a).
Proof. by intros s. Qed.

Lemma keep_raise {A} e : keeps_store (D:=D) (A:=A) (raise e).
Proof. by intros s. Qed.

Lemma keep_lift {A} (r : Result A) : keeps_store (D:=D) (lift r).
Proof. by intros s. Qed.

Lemma keep_get : keeps_store (D:=D) get.
Proof. by intros s. Qed.

Lemma keep_on_docker {A} (f : D -> Result A * D) : keeps_store (Service.on_docker f).
Proof. intros s. unfold Service.on_docker. by destruct (f (docker s)). Qed.

Lemma keep_bind {A B} (m : M D A) (k : A -> M D B) :
  keeps_store m -> (∀ a, keeps_store (k a)) -> keeps_store (bind m k).
Proof.
  intros Hm Hk s. unfold bind. destruct (Hm s) as (H1 & H2 & H3 & H4).
  destruct (m s) as [[a|e] s1]; simpl in *; [|done].
  destruct (Hk a s1) as (K1 & K2 & K3 & K4). by rewrite K1, K2, K3, K4.
Qed.

Lemma keep_answer attr d : keeps_store (D:=D) (Service.answer attr d).
Proof.
  unfold Service.answer, Service.ReturnCodes_attr.
  apply keep_bind; [apply keep_lift | intros; apply keep_lift].
Qed.

Lemma keep_online_loop nodes acc : keeps_store (Service.online_loop client nodes acc).
Proof.
  revert acc. induction nodes as [|n nodes IH]; intros acc; simpl.
  - apply keep_ret.
  - apply keep_bind; [apply keep_on_docker|].
    intros n'. destruct (Service.is_online n'); apply IH.
Qed.

End ReadOnly.

#[global] Hint Resolve keep_ret keep_raise keep_lift keep_get keep_on_docker
  keep_answer keep_online_loop : keepdb.

Ltac keep_step :=
  first
    [ progress cbv zeta | apply keep_bind
    | match goal with
      | |- keeps_store (if ?b then _ else _) => destruct b
      | |- keeps_store (match ?x with _ => _ end) => destruct x
      | |- ∀ _, _ => intros ?
      end
    | solve [eauto with keepdb] ].

Section ReadOnlyHandlers.
Context {D : Type} (client : DockerClient D).
Implicit Types (st s : State D) (ru : RequestUser).

Lemma handle_reads_only ru r :
  reads_only r = true ->
  ∃ body, keeps_store body ∧ handle client ru r = checked_handler ru USER body.
Proof.
  destruct r; try discriminate; intros _; simpl; eexists; (split; [|reflexivity]);
    unfold Registry.User_get_by_id, Registry.GPU_by_workers,
      Service.client_services_list, Service.client_nodes_list;
    repeat keep_step.
Qed.

End ReadOnlyHandlers.

(** X16.  [/check_ssh_key], [/job_list] and [/list_resources] only read.
    Whatever the caller and whatever Docker answers, they add to the log the
    permission check and its contact-info refresh and nothing else, and the
    user, worker and GPU tables are after the call what the refresh left. *)
Theorem read_only_handlers {D} (client : DockerClient D) (ru : RequestUser)
    (r : Request) (st : State D) :
  reads_only r = true ->
  calls (handle client ru r st).2
  = calls st ++ [CPermissionCheck (user_id ru) USER; CUserUpdateDetails (user_id ru)] ∧
  users (handle client ru r st).2 = users (refreshed ru USER st) ∧
  workers (handle client ru r st).2 = workers st ∧
  gpus (handle client ru r st).2 = gpus st ∧
  (∀ u, has_key (handle client ru r st).2 u = has_key st u).
Proof.
  intros Hr. destruct (handle_reads_only client ru r Hr) as [body [Hb ->]].
  assert (H : calls (checked_handler ru USER body st).2 = calls (refreshed ru USER st) ∧
              users (checked_handler ru USER body st).2 = users (refreshed ru USER st) ∧
              workers (checked_handler ru USER body st).2 = workers st ∧
              gpus (checked_handler ru USER body st).2 = gpus st).
  { unfold checked_handler, bind.
    pose proof (permission_check_state ru USER st) as Hs.
    destruct (Service.permission_check ru USER st) as [[[err|]|e] s1];
      simpl in Hs; subst s1; [done| |done].
    destruct (Hb (refreshed ru USER st)) as (H1 & H2 & H3 & H4). done. }
  destruct H as (H1 & H2 & H3 & H4).
  split; [by rewrite H1, calls_refreshed|]. split; [exact H2|].
  split; [exact H3|]. split; [exact H4|].
  intros u. rewrite <- (has_key_refreshed ru USER st u). unfold has_key. by rewrite H2.
Qed.

Lemma read_only_handlers_witness :
  reads_only (ListResources None None) = true ∧
  calls (Service.list_resources Sim.client Sim.bob None None Sim.state0).2
  = calls Sim.state0 ++ [CPermissionCheck "7" USER; CUserUpdateDetails "7"].
Proof.
  split; [reflexivity|].
  exact (proj1 (read_only_handlers Sim.client Sim.bob (ListResources None None)
                  Sim.state0 eq_refl)).
Defined.

(** ** Expiry labels compared *)

(** X17.  Two valid instants get the same [%m%d%Y%H%M%S] label only if
    they are the same instant to the second: date and time of day agree,
    only the microseconds may differ. *)
Theorem strftime_label_injective (dt1 dt2 : PyDatetime.datetime) :
  PyDatetime.valid dt1 = true ->
  PyDatetime.valid dt2 = true ->
  PyDatetime.strftime_mdYHMS dt1 = PyDatetime.strftime_mdYHMS dt2 ->
  PyDatetime.truncate_to_second dt1 = PyDatetime.truncate_to_second dt2.
Proof.
  intros H1 H2 Heq.
  pose proof (read_label_strftime dt1 H1) as R1.
  pose proof (read_label_strftime dt2 H2) as R2.
  rewrite Heq in R1. congruence.
Qed.

Lemma strftime_label_injective_witness :
  (PyDatetime.valid (PyDatetime.Build_datetime 2024 1 1 3 15 9 123) = true ∧
   PyDatetime.valid (PyDatetime.Build_datetime 2024 1 1 3 15 9 999999) = true ∧
   PyDatetime.strftime_mdYHMS (PyDatetime.Build_datetime 2024 1 1 3 15 9 123)
   = PyDatetime.strftime_mdYHMS (PyDatetime.Build_datetime 2024 1 1 3 15 9 999999)) ∧
  PyDatetime.truncate_to_second (PyDatetime.Build_datetime 2024 1 1 3 15 9 123)
  = PyDatetime.truncate_to_second (PyDatetime.Build_datetime 2024 1 1 3 15 9 999999).
Proof.
  split; [repeat split; reflexivity|].
  apply strftime_label_injective; reflexivity.
Defined.

(** ** Messages *)

(** X18.  Every code that [is_error] classifies as an error has a message
    template, so the message of an error answer is that fixed text, whatever
    its data and however the runtime renders codes and JSON; the defined
    codes without a template, whose message is the rendering of code and
    data, are exactly [DISPATCH_OK] and [RESOURCES]. *)
Theorem error_messages_are_templates (format_code : ReturnCodes -> string)
    (json_dumps : list (string * Value) -> Result string) (a : ManagerAnswer) :
  (is_error (code a) = false ∨
   ∃ template, code_get (code a) MESSAGE_TEMPLATES = Some template ∧
               ManagerAnswer_message format_code json_dumps a = Ok template) ∧
  (code_get (code a) MESSAGE_TEMPLATES = None <-> code a ∈ [DISPATCH_OK; RESOURCES]).
Proof.
  destruct a as [c d]. cbn [code]. split.
  - destruct (is_error c) eqn:H; [right | by left].
    destruct c; try (vm_compute in H; discriminate H); eexists; split; reflexivity.
  - split; intros H.
    + destruct c; try (vm_compute in H; discriminate H);
        match goal with |- ?P => exact (bool_decide_eq_true_1 P eq_refl) end.
    + destruct c; try reflexivity; exfalso;
        match type of H with ?P => exact (bool_decide_eq_false_1 P eq_refl H) end.
Qed.

(** ** The bot's [/set_permission] parameters *)

Section BotParams.
Variable py_split : string -> list string.
Variable py_int : string -> option Z.
Variable py_str : Z -> string.

Lemma PermissionLevel_getitem_ok name l :
  Bot.PermissionLevel_getitem name = Ok l <->
  name = match l with OWNER => "OWNER" | ADMIN => "ADMIN" | USER => "USER" end.
Proof.
  unfold Bot.PermissionLevel_getitem.
  destruct (String.eqb_spec name "OWNER") as [->|H1];
    [destruct l; split; (done || discriminate)|].
  destruct (String.eqb_spec name "ADMIN") as [->|H2];
    [destruct l; split; (done || discriminate)|].
  destruct (String.eqb_spec name "USER") as [->|H3];
    [destruct l; split; (done || discriminate)|].
  split; [discriminate|]. by destruct l.
Qed.

End BotParams.

(** X19.  The bot calls the manager exactly when the parameters are two
    tokens, the first one an integer and the second one the exact name of a
    level ([OWNER], [ADMIN] or [USER], upper case); the user id it passes is
    the integer printed back, and the level is the one named. *)
Theorem bot_set_permission_calls_manager (py_split : string -> list string)
    (py_int : string -> option Z) (py_str : Z -> string)
    (params_str uid : string) (level : PermissionLevel) :
  (Bot.set_permission py_split py_int py_str params_str
   = Ok (Bot.ManagerCalled uid level))
  <->
  (∃ token n,
     py_split params_str
     = [token; match level with OWNER => "OWNER" | ADMIN => "ADMIN" | USER => "USER" end] ∧
     py_int token = Some n ∧ uid = py_str n).
Proof.
  unfold Bot.set_permission, Bot.set_permission_params.
  destruct (py_split params_str) as [|token rest]; [split; [done | by intros (? & ? & ? & _)]|].
  destruct (py_int token) as [n|] eqn:Hn.
  - destruct rest as [|name [|x rest]]; cbn [length Nat.eqb negb].
    + split; [done | by intros (? & ? & ? & _)].
    + destruct (Bot.PermissionLevel_getitem name) as [l|e] eqn:Hl.
      * apply PermissionLevel_getitem_ok in Hl. split.
        -- intros [= <- <-]. exists token, n. by rewrite Hl.
        -- intros (t & n' & [= <- Hname] & Hn' & ->). rewrite Hn in Hn'.
           injection Hn' as <-. f_equal. f_equal.
           destruct l, level; subst; (done || discriminate).
      * split.
        -- destruct e; discriminate.
        -- intros (t & n' & [= <- Hname] & _).
           apply PermissionLevel_getitem_ok in Hname. congruence.
    + split; [done | by intros (? & ? & [= _ _] & _)].
  - split.
    + done.
    + intros (t & n' & [= <- _] & Hn' & _). congruence.
Qed.

(** X20.  A level name the enum does not know is not a parse error.  With
    two tokens, the first one an integer, and a second token that is none of
    [OWNER], [ADMIN], [USER] (a lower-case [admin], say), the lookup
    [PermissionLevel[...]] raises [KeyError], which [except ValueError] does
    not catch: the exception leaves the handler and no reply is sent. *)
Theorem bot_set_permission_unknown_level (py_split : string -> list string)
    (py_int : string -> option Z) (py_str : Z -> string)
    (params_str token name : string) (n : Z) :
  py_split params_str = [token; name] ->
  py_int token = Some n ->
  name ∉ ["OWNER"; "ADMIN"; "USER"] ->
  Bot.set_permission py_split py_int py_str params_str = Raise (KeyError name).
Proof.
  intros Hs Hn Hname. unfold Bot.set_permission, Bot.set_permission_params.
  rewrite Hs, Hn. cbn [length Nat.eqb negb]. unfold Bot.PermissionLevel_getitem.
  destruct (String.eqb_spec name "OWNER") as [->|_]; [exfalso; apply Hname; set_solver|].
  destruct (String.eqb_spec name "ADMIN") as [->|_]; [exfalso; apply Hname; set_solver|].
  destruct (String.eqb_spec name "USER") as [->|_]; [exfalso; apply Hname; set_solver|].
  reflexivity.
Qed.

Lemma bot_set_permission_unknown_level_witness :
  ("admin" ∉ ["OWNER"; "ADMIN"; "USER"]) ∧
  Bot.set_permission (fun _ => ["42"; "admin"]) (fun _ => Some 42%Z) (fun _ => "42")
    " 42 admin"
  = Raise (KeyError "admin").
Proof.
  assert (H : "admin" ∉ ["OWNER"; "ADMIN"; "USER"]).
  { intros H. repeat (apply elem_of_cons in H as [H|H]; [discriminate H|]).
    by apply elem_of_nil in H. }
  split; [exact H|].
  exact (bot_set_permission_unknown_level (fun _ => ["42"; "admin"]) (fun _ => Some 42%Z)
           (fun _ => "42") " 42 admin" "42" "admin" 42 eq_refl eq_refl H).
Defined.
